(** * cert-manager [kubectl cert-manager create certificaterequest]

    A shallow embedding of [cmd/ctl/pkg/create/certificaterequest.go] and of
    the library code it calls, followed by the properties of the translation
    pipeline certificate -> key -> signed CSR -> CertificateRequest. *)

From Stdlib Require Import NArith Ascii String List Lia.
From stdpp Require Import base gmap strings pretty list fin_maps.

Local Open Scope N_scope.

(** Go's [string] and [[]byte] are both byte sequences. *)
Abbreviation bytes := string (only parsing).

Definition nl : ascii := ascii_of_nat 10.
Definition carriageReturn : ascii := ascii_of_nat 13.
Definition tab : ascii := ascii_of_nat 9.
Definition space : ascii := ascii_of_nat 32.

(** ** Go's [encoding/base64], standard alphabet with padding *)
Module base64.

Definition encodeStd : string :=
  "ABCDEFGHIJKLMNOPQRSTUVWXYZabcdefghijklmnopqrstuvwxyz0123456789+/".

Definition padChar : ascii := "="%char.

(** [enc.encode[i]] *)
Definition encode (i : N) : ascii :=
  match String.get (N.to_nat i) encodeStd with
  | Some c => c
  | None => padChar
  end.

Fixpoint indexByte (c : ascii) (s : string) : option N :=
  match s with
  | EmptyString => None
  | String d s' =>
      if Ascii.eqb c d then Some 0
      else match indexByte c s' with
           | Some i => Some (N.succ i)
           | None => None
           end
  end.

(** [enc.decodeMap[c]], [None] standing for the invalid marker 0xFF *)
Definition decodeMap (c : ascii) : option N := indexByte c encodeStd.

Definition u (c : ascii) : N := N_of_ascii c.
Definition byte (n : N) : ascii := ascii_of_N (N.land n 255).

Definition quantum (a b c : ascii) : N :=
  N.lor (N.lor (N.shiftl (u a) 16) (N.shiftl (u b) 8)) (u c).

Definition sextet (val : N) (shift : N) : ascii :=
  encode (N.land (N.shiftr val shift) 63).

Fixpoint EncodeToString (src : bytes) : string :=
  match src with
  | String a (String b (String c rest)) =>
      let val := quantum a b c in
      String (sextet val 18) (String (sextet val 12)
        (String (sextet val 6) (String (sextet val 0) (EncodeToString rest))))
  | String a (String b EmptyString) =>
      let val := N.lor (N.shiftl (u a) 16) (N.shiftl (u b) 8) in
      String (sextet val 18) (String (sextet val 12)
        (String (sextet val 6) (String padChar EmptyString)))
  | String a EmptyString =>
      let val := N.shiftl (u a) 16 in
      String (sextet val 18) (String (sextet val 12)
        (String padChar (String padChar EmptyString)))
  | EmptyString => EmptyString
  end.

Definition dquantum (q0 q1 q2 q3 : N) : N :=
  N.lor (N.lor (N.lor (N.shiftl q0 18) (N.shiftl q1 12)) (N.shiftl q2 6)) q3.

(** Decoding of input from which line breaks were already removed: full
    quanta of four characters, padding only in the last quantum. *)
Fixpoint DecodeString (s : string) : option bytes :=
  match s with
  | EmptyString => Some EmptyString
  | String c0 (String c1 (String c2 (String c3 rest))) =>
      match decodeMap c0, decodeMap c1 with
      | Some q0, Some q1 =>
          if Ascii.eqb c2 padChar then
            if Ascii.eqb c3 padChar then
              match rest with
              | EmptyString =>
                  let val := dquantum q0 q1 0 0 in
                  Some (String (byte (N.shiftr val 16)) EmptyString)
              | _ => None
              end
            else None
          else
            match decodeMap c2 with
            | Some q2 =>
                if Ascii.eqb c3 padChar then
                  match rest with
                  | EmptyString =>
                      let val := dquantum q0 q1 q2 0 in
                      Some (String (byte (N.shiftr val 16))
                             (String (byte (N.shiftr val 8)) EmptyString))
                  | _ => None
                  end
                else
                  match decodeMap c3 with
                  | Some q3 =>
                      let val := dquantum q0 q1 q2 q3 in
                      match DecodeString rest with
                      | Some out =>
                          Some (String (byte (N.shiftr val 16))
                                 (String (byte (N.shiftr val 8))
                                   (String (byte val) out)))
                      | None => None
                      end
                  | None => None
                  end
            | None => None
            end
      | _, _ => None
      end
  | _ => None
  end.

End base64.

(** ** Byte-slice helpers of Go's [bytes] package *)

(** [bytes.HasPrefix], returning what follows the prefix. *)
Fixpoint cutPrefix (p s : string) : option string :=
  match p, s with
  | EmptyString, _ => Some s
  | String a p', String b s' => if Ascii.eqb a b then cutPrefix p' s' else None
  | String _ _, EmptyString => None
  end.

(** [bytes.Index]: the text before the first occurrence of [sep] and the
    text after it. *)
Fixpoint Index (sep s : string) : option (string * string) :=
  match cutPrefix sep s with
  | Some after => Some (EmptyString, after)
  | None =>
      match s with
      | EmptyString => None
      | String c s' =>
          match Index sep s' with
          | Some (before, after) => Some (String c before, after)
          | None => None
          end
      end
  end.

(** [bytes.IndexByte(s, c) != -1] *)
Fixpoint containsByte (c : ascii) (s : string) : bool :=
  match s with
  | EmptyString => false
  | String d s' => Ascii.eqb c d || containsByte c s'
  end.

(** [bytes.TrimRight(s, " \t")] *)
Fixpoint TrimRight (s : string) : string :=
  match s with
  | EmptyString => EmptyString
  | String c s' =>
      match TrimRight s' with
      | EmptyString =>
          if Ascii.eqb c space || Ascii.eqb c tab then EmptyString
          else String c EmptyString
      | t => String c t
      end
  end.

(** [s[1:]] *)
Definition from1 (s : string) : string :=
  match s with
  | EmptyString => EmptyString
  | String _ s' => s'
  end.

(** ** Go's [encoding/pem] *)
Module pem.

Record Block := { Type_ : string; Bytes : bytes }.

Definition pemStart : string := String nl "-----BEGIN ".
Definition pemEnd : string := String nl "-----END ".
Definition pemEndOfLine : string := "-----".
Definition pemLineLength : nat := 64.

(** [lineBreaker]: [used] characters of the current line are buffered; a
    line that reaches [pemLineLength] is written with its line feed, and
    closing writes a partial line with its line feed. *)
Fixpoint lineBreaker (used : nat) (s : string) : string :=
  match s with
  | EmptyString =>
      match used with O => EmptyString | S _ => String nl EmptyString end
  | String c s' =>
      if Nat.eqb (S used) pemLineLength
      then String c (String nl (lineBreaker 0 s'))
      else String c (lineBreaker (S used) s')
  end.

(** [pem.EncodeToMemory] of a block without headers (it cannot fail then). *)
Definition EncodeToMemory (b : Block) : bytes :=
  from1 pemStart +:+ Type_ b +:+ pemEndOfLine +:+ String nl EmptyString
    +:+ lineBreaker 0 (base64.EncodeToString (Bytes b))
    +:+ from1 pemEnd +:+ Type_ b +:+ pemEndOfLine +:+ String nl EmptyString.

(** The text up to the first line feed, and the text after it. *)
Fixpoint splitLine (data : string) : string * string :=
  match data with
  | EmptyString => (EmptyString, EmptyString)
  | String c s' =>
      if Ascii.eqb c nl then (EmptyString, s')
      else let '(l, r) := splitLine s' in (String c l, r)
  end.

(** Drops one carriage return that ends the line. *)
Fixpoint dropCR (l : string) : string :=
  match l with
  | EmptyString => EmptyString
  | String c EmptyString =>
      if Ascii.eqb c carriageReturn then EmptyString else String c EmptyString
  | String c l' => String c (dropCR l')
  end.

Definition getLine (data : string) : string * string :=
  let '(l, r) := splitLine data in (TrimRight (dropCR l), r).

Fixpoint removeWhitespace (s : string) : string :=
  match s with
  | EmptyString => EmptyString
  | String c s' =>
      if Ascii.eqb c space || Ascii.eqb c tab || Ascii.eqb c carriageReturn
         || Ascii.eqb c nl
      then removeWhitespace s'
      else String c (removeWhitespace s')
  end.

(** [bytes.HasSuffix], returning what precedes the suffix. *)
Fixpoint cutSuffix (suf s : string) : option string :=
  if String.eqb s suf then Some EmptyString
  else match s with
       | EmptyString => None
       | String c s' =>
           match cutSuffix suf s' with
           | Some before => Some (String c before)
           | None => None
           end
       end.

(** [pem.Decode] on data that starts with a block without headers.  Go's
    function also skips text before the first block and retries after a
    malformed one; here both give [None]. *)
Definition Decode (data : bytes) : option Block :=
  match cutPrefix (from1 pemStart) data with
  | None => None
  | Some rest =>
      let '(typeLine, rest) := getLine rest in
      match cutSuffix pemEndOfLine typeLine with
      | None => None
      | Some ty =>
          match rest with
          | EmptyString => None
          | _ =>
              if containsByte ":"%char (fst (getLine rest)) then None
              else
                let found :=
                  match cutPrefix (from1 pemEnd) rest with
                  | Some endTrailer => Some (EmptyString, endTrailer)
                  | None => Index pemEnd rest
                  end in
                match found with
                | None => None
                | Some (body, endTrailer) =>
                    match cutPrefix ty endTrailer with
                    | None => None
                    | Some t1 =>
                        match cutPrefix pemEndOfLine t1 with
                        | None => None
                        | Some restOfEndLine =>
                            match fst (getLine restOfEndLine) with
                            | EmptyString =>
                                match base64.DecodeString (removeWhitespace body) with
                                | Some b => Some {| Type_ := ty; Bytes := b |}
                                | None => None
                                end
                            | _ => None
                            end
                        end
                    end
                end
          end
      end
  end.

End pem.

(** ** Character classes used to state what the encoders emit *)

Fixpoint allChars (P : ascii -> bool) (s : string) : bool :=
  match s with
  | EmptyString => true
  | String c s' => P c && allChars P s'
  end.

Definition isWhitespace (c : ascii) : bool :=
  Ascii.eqb c space || Ascii.eqb c tab || Ascii.eqb c carriageReturn || Ascii.eqb c nl.

(** A character of the base64 text: no dash, no colon, no white space. *)
Definition bodyChar (c : ascii) : bool :=
  negb (Ascii.eqb c "-") && negb (Ascii.eqb c ":") && negb (isWhitespace c).

(** A character of a block label: no line feed and no colon. *)
Definition labelChar (c : ascii) : bool :=
  negb (Ascii.eqb c nl) && negb (Ascii.eqb c ":").

(** Text broken into lines: base64 characters and line feeds, each line
    feed followed by a base64 character. *)
Fixpoint wrapped (s : string) : bool :=
  match s with
  | EmptyString => true
  | String c s' =>
      (if Ascii.eqb c nl
       then match s' with String d _ => bodyChar d | EmptyString => false end
       else bodyChar c)
      && wrapped s'
  end.

(** ** Kubernetes and cert-manager API objects

    The types are declared in [k8s.io/apimachinery] and in
    [pkg/apis/certmanager/v1alpha2]; the fields kept here are the ones the
    command reads or writes, and the subject and key choice that the key
    generator and the request namer read. *)

Definition error := string.
Definition loc := positive.

(** A Go map value is [nil] or a reference to a map object on the heap;
    copying the value copies the reference. *)
Definition mapref := option loc.

Module metav1.
Record ObjectMeta := {
  Name : string;
  GenerateName : string;
  Namespace : string;
  Labels : mapref;
  Annotations : mapref
}.
End metav1.

Module cmmeta.
Record ObjectReference := { Name : string; Kind : string; Group : string }.
End cmmeta.

Module CertificateSpec.
Record t := {
  CommonName : string;
  DNSNames : list string;
  Duration : option N;
  SecretName : string;
  IssuerRef : cmmeta.ObjectReference;
  IsCA : bool;
  Usages : list string;
  KeySize : N;
  KeyAlgorithm : string;
  KeyEncoding : string
}.
End CertificateSpec.

Module Certificate.
Record t := { ObjectMeta : metav1.ObjectMeta; Spec : CertificateSpec.t }.
End Certificate.

Module CertificateRequestSpec.
Record t := {
  CSRPEM : bytes;
  Duration : option N;
  IssuerRef : cmmeta.ObjectReference;
  IsCA : bool;
  Usages : list string
}.
End CertificateRequestSpec.

Module CertificateRequest.
Record t := { ObjectMeta : metav1.ObjectMeta; Spec : CertificateRequestSpec.t }.
End CertificateRequest.

(** [runtime.Object]: what a manifest decodes to. *)
Inductive Object :=
| CertificateObject (crt : Certificate.t)
| OtherObject (kind : string).

(** [resource.Info] *)
Record Info := { InfoObject : Object }.

(** ** Program state

    The heap holds the Go map objects, [entropy] is what is left of the
    random source, and [trace] logs, in order, the library calls entered,
    those that returned an error, the maps allocated and the requests the
    API server accepted. *)

Inductive callee :=
| ConvertToVersion_
| Printf_
| ComputeCertificateRequestName_
| GeneratePrivateKeyForCertificate_
| EncodePrivateKey_
| GenerateCSR_
| DecodePrivateKeyBytes_
| EncodeCSR_
| EncodeToMemory_
| Create_.

Inductive event :=
| Call (c : callee)
| Failure (c : callee)
| Make (l : loc)
| Created (ns : string) (req : CertificateRequest.t).

Record state := {
  heap : gmap loc (gmap string string);
  entropy : bytes;
  trace : list event
}.

(** Go's [(T, error)] results over the state. *)
Definition M (A : Type) : Type := state -> (error + A) * state.

Definition ret {A} (a : A) : M A := fun σ => (inr a, σ).

Definition throw {A} (e : error) : M A := fun σ => (inl e, σ).

Definition bind {A B} (m : M A) (k : A -> M B) : M B :=
  fun σ =>
    match m σ with
    | (inr a, σ') => k a σ'
    | (inl e, σ') => (inl e, σ')
    end.

Notation "x <- m ;; k" := (bind m (fun x => k))
  (at level 100, m at next level, right associativity).
Notation "m ;;; k" := (bind m (fun _ => k))
  (at level 100, right associativity).

(** [if err != nil { return wrap(err) }] *)
Definition orReturn {A} (r : error + A) (wrap : error -> error) : M A :=
  match r with
  | inr a => ret a
  | inl e => throw (wrap e)
  end.

Definition log (e : event) : M unit :=
  fun σ => (inr tt, {| heap := heap σ; entropy := entropy σ; trace := trace σ ++ [e] |}).

(** A library call that reads the state. *)
Definition gets {A} (f : state -> A) : M A := fun σ => (inr (f σ), σ).

(** A library call that reads the random source. *)
Definition random {A} (f : bytes -> (error + A) * bytes) : M (error + A) :=
  fun σ =>
    let '(r, rest) := f (entropy σ) in
    (inr r, {| heap := heap σ; entropy := rest; trace := trace σ |}).

(** [v, err := c(...); if err != nil { return wrap(err) }], logging the
    call and its failure. *)
Definition call {A} (c : callee) (run : M (error + A)) (wrap : error -> error) : M A :=
  log (Call c) ;;;
  r <- run ;;
  match r with
  | inr v => ret v
  | inl e => log (Failure c) ;;; throw (wrap e)
  end.

(** [make(map[string]string, n)] *)
Definition make : M loc :=
  fun σ =>
    let l := fresh (dom (heap σ)) in
    (inr l, {| heap := <[l := ∅]> (heap σ); entropy := entropy σ;
               trace := trace σ ++ [Make l] |}).

(** [m[k] = v] on a map that is not nil *)
Definition mapassign (l : loc) (k v : string) : M unit :=
  fun σ =>
    (inr tt, {| heap := alter (insert k v) l (heap σ); entropy := entropy σ;
                trace := trace σ |}).

(** The entries of a map value; a nil map has none. *)
Definition entries (h : gmap loc (gmap string string)) (m : mapref)
  : gmap string string :=
  match m with
  | None => ∅
  | Some l => default ∅ (h !! l)
  end.

Fixpoint forEach {A} (l : list A) (body : A -> M unit) : M unit :=
  match l with
  | [] => ret tt
  | x :: l' => body x ;;; forEach l' body
  end.

(** [for k, v := range m { body }] for a body that does not write to [m].
    Go leaves the order of the visit open; here it is that of
    [map_to_list]. *)
Definition rangeMap (m : mapref) (body : string -> string -> M unit) : M unit :=
  fun σ => forEach (map_to_list (entries (heap σ) m)) (fun kv => body kv.1 kv.2) σ.

(** ** The packages the command calls

    [pkg/util/pki], [pkg/api/util], the webhook scheme, the generated client
    and the two annotation keys of the API package are not part of this
    file: the command is embedded over any implementation of them. *)
Record Deps := {
  Signer : Type;
  X509CertificateRequest : Type;
  PublicKey : Type;
  (** [crypto.Signer.Public] *)
  Public : Signer -> PublicKey;
  (** the public key of the CSR that [x509.ParseCertificateRequest] reads
      from DER bytes *)
  ParseCertificateRequest : bytes -> option PublicKey;
  CRPrivateKeyAnnotationKey : string;
  CertificateNameKey : string;
  ConvertToVersion : Object -> error + Object;
  ComputeCertificateRequestName : Certificate.t -> error + string;
  GeneratePrivateKeyForCertificate : Certificate.t -> bytes -> (error + Signer) * bytes;
  EncodePrivateKey : Signer -> string -> error + bytes;
  GenerateCSR : Certificate.t -> error + X509CertificateRequest;
  DecodePrivateKeyBytes : bytes -> error + Signer;
  EncodeCSR : X509CertificateRequest -> Signer -> bytes -> (error + bytes) * bytes;
  (** the answer of the API server to a create request *)
  Create : string -> CertificateRequest.t -> gmap loc (gmap string string)
           -> error + CertificateRequest.t
}.

(** What the factory and the resource builder resolve for an invocation:
    the results of [Namespace()], [r.Err()] and [Infos()]. *)
Record Factory := {
  ToNamespace : error + (string * bool);
  BuilderErr : option error;
  ToInfos : error + list Info
}.

(** ** The command *)
Section create.
Context (D : Deps).

Definition generateCSR (crt : Certificate.t) (pk : bytes) : M bytes :=
  csr <- call GenerateCSR_ (ret (GenerateCSR D crt)) id ;;
  signer <- call DecodePrivateKeyBytes_ (ret (DecodePrivateKeyBytes D pk)) id ;;
  csrDER <- call EncodeCSR_ (random (EncodeCSR D csr signer)) id ;;
  log (Call EncodeToMemory_) ;;;
  let csrPEM :=
    pem.EncodeToMemory {| pem.Type_ := "CERTIFICATE REQUEST"; pem.Bytes := csrDER |} in
  ret csrPEM.

Definition buildCertificateRequest (crt : Certificate.t) (name : string) (pk : bytes)
  : M CertificateRequest.t :=
  csrPEM <- generateCSR crt pk ;;
  annotations <- make ;;
  rangeMap (metav1.Annotations (Certificate.ObjectMeta crt))
    (fun k v => mapassign annotations k v) ;;;
  mapassign annotations (CRPrivateKeyAnnotationKey D)
    (CertificateSpec.SecretName (Certificate.Spec crt)) ;;;
  mapassign annotations (CertificateNameKey D)
    (metav1.Name (Certificate.ObjectMeta crt)) ;;;
  let cr := {|
    CertificateRequest.ObjectMeta := {|
      metav1.Name := "";
      metav1.GenerateName := metav1.Name (Certificate.ObjectMeta crt) +:+ "-";
      metav1.Namespace := "";
      metav1.Labels := metav1.Labels (Certificate.ObjectMeta crt);
      metav1.Annotations := Some annotations |};
    CertificateRequest.Spec := {|
      CertificateRequestSpec.CSRPEM := csrPEM;
      CertificateRequestSpec.Duration := CertificateSpec.Duration (Certificate.Spec crt);
      CertificateRequestSpec.IssuerRef := CertificateSpec.IssuerRef (Certificate.Spec crt);
      CertificateRequestSpec.IsCA := CertificateSpec.IsCA (Certificate.Spec crt);
      CertificateRequestSpec.Usages := CertificateSpec.Usages (Certificate.Spec crt) |} |} in
  ret cr.

(** The body of the loop over [infos]. *)
Definition runInfo (cmdNamespace : string) (info : Info) : M unit :=
  crtObj <- call ConvertToVersion_ (ret (ConvertToVersion D (InfoObject info)))
              (fun e => "failed to convert certificate into version v1alpha2: " +:+ e) ;;
  crt <- match crtObj with
         | CertificateObject crt => ret crt
         | OtherObject _ => throw "decoded object is not a v1alpha2 Certificate"
         end ;;
  log (Call Printf_) ;;;
  expectedReqName <- call ComputeCertificateRequestName_
                       (ret (ComputeCertificateRequestName D crt))
                       (fun e => "internal error hashing certificate spec: " +:+ e) ;;
  signer <- call GeneratePrivateKeyForCertificate_
              (random (GeneratePrivateKeyForCertificate D crt))
              (fun _ => "error when generating private key") ;;
  keyData <- call EncodePrivateKey_
               (ret (EncodePrivateKey D signer
                       (CertificateSpec.KeyEncoding (Certificate.Spec crt))))
               (fun _ => "error when encoding private key") ;;
  req <- buildCertificateRequest crt expectedReqName keyData ;;
  let ns := if String.eqb (metav1.Namespace (Certificate.ObjectMeta crt)) ""
            then cmdNamespace
            else metav1.Namespace (Certificate.ObjectMeta crt) in
  _ <- call Create_ (gets (fun σ => Create D ns req (heap σ)))
         (fun e => "error when creating CertifcateRequest through client: " +:+ e) ;;
  log (Created ns req).

Definition Run (f : Factory) : M unit :=
  ns <- orReturn (ToNamespace f) id ;;
  let '(cmdNamespace, enforceNamespace) := ns in
  match BuilderErr f with
  | Some e => throw ("error here: " +:+ e)
  | None =>
      infos <- orReturn (ToInfos f) (fun e => "error here instead: " +:+ e) ;;
      if Nat.eqb (List.length infos) 0
      then throw "no object passed to create certificaterequest"
      else if Nat.ltb 1 (List.length infos)
      then throw "multiple objects passed to create certificaterequest"
      else forEach infos (runInfo cmdNamespace)
  end.

End create.

(** ** A reference implementation of the called packages

    The packages behind [Deps] are not in this file.  The definitions of
    this module follow the component contracts of the specification (key
    generator, key codec, CSR builder, CSR signer, request namer); they
    give the theorems below an implementation to run on. *)
Module SpecModel.

(** FNV-1, 32 bits: the hash used where the specification asks for one. *)
Definition fnv32_step (h : N) (c : ascii) : N :=
  N.lxor ((h * 16777619) mod 4294967296) (N_of_ascii c).

Fixpoint fnv32_from (h : N) (s : bytes) : N :=
  match s with
  | EmptyString => h
  | String c s' => fnv32_from (fnv32_step h c) s'
  end.

Definition fnv32 (s : bytes) : N := fnv32_from 2166136261 s.

(** Big-endian bytes of a 32-bit value. *)
Definition be32 (n : N) : bytes :=
  String (base64.byte (N.shiftr n 24)) (String (base64.byte (N.shiftr n 16))
    (String (base64.byte (N.shiftr n 8)) (String (base64.byte n) EmptyString))).

Fixpoint joinWith (sep : string) (l : list string) : string :=
  match l with
  | [] => EmptyString
  | [x] => x
  | x :: l' => x +:+ sep +:+ joinWith sep l'
  end.

(** Modelled from the spec: the issuance-relevant fields of a certificate
    spec, which the glossary lists as subject, SANs, usages and key type. *)
Definition issuanceRelevant (crt : Certificate.t)
  : string * list string * list string * (string * N) :=
  let s := Certificate.Spec crt in
  (CertificateSpec.CommonName s, CertificateSpec.DNSNames s,
   CertificateSpec.Usages s,
   (CertificateSpec.KeyAlgorithm s, CertificateSpec.KeySize s)).

(** Modelled from the spec: the stable byte representation of the
    issuance-relevant fields that the request namer hashes. *)
Definition canonicalize (r : string * list string * list string * (string * N)) : bytes :=
  let '(cn, sans, usages, (alg, size)) := r in
  "cn=" +:+ cn +:+ ";sans=" +:+ joinWith "," sans +:+ ";usages="
    +:+ joinWith "," usages +:+ ";key=" +:+ alg +:+ "/" +:+ pretty size.

(** Modelled from the spec: [apiutil.ComputeCertificateRequestName], the
    request namer of section 4.5: canonicalize the issuance-relevant
    fields, hash them, encode the digest and prefix it with the spec's
    name. *)
Definition computeName (hash : bytes -> N) (crt : Certificate.t) : error + string :=
  inr (metav1.Name (Certificate.ObjectMeta crt) +:+ "-"
         +:+ pretty (hash (canonicalize (issuanceRelevant crt)))).

Inductive KeyAlg := RSA | ECDSA.

(** Modelled from the spec: the private key, opaque key-pair material that
    matches the algorithm choice of the certificate spec. *)
Record PrivateKey := { alg : KeyAlg; material : bytes }.

(** The first [n] bytes of the random source and what is left of it. *)
Fixpoint readRandom (n : nat) (src : bytes) : option (bytes * bytes) :=
  match n with
  | O => Some (EmptyString, src)
  | S n' =>
      match src with
      | EmptyString => None
      | String c src' =>
          match readRandom n' src' with
          | Some (got, rest) => Some (String c got, rest)
          | None => None
          end
      end
  end.

(** Modelled from the spec: the supported key choices of section 4.1, RSA
    with an allowed bit length or a curve of a fixed set. *)
Definition supported (algorithm : string) (size : N) : option KeyAlg :=
  if String.eqb algorithm "rsa" then
    if (size =? 2048) || (size =? 3072) || (size =? 4096) then Some RSA else None
  else if String.eqb algorithm "ecdsa" then
    if (size =? 256) || (size =? 384) then Some ECDSA else None
  else None.

(** Modelled from the spec: [pki.GeneratePrivateKeyForCertificate], the key
    generator of section 4.1. *)
Definition generate (crt : Certificate.t) (src : bytes) : (error + PrivateKey) * bytes :=
  let s := Certificate.Spec crt in
  match supported (CertificateSpec.KeyAlgorithm s) (CertificateSpec.KeySize s) with
  | None => (inl "UnsupportedAlgorithm", src)
  | Some a =>
      match readRandom (N.to_nat (CertificateSpec.KeySize s / 8)) src with
      | None => (inl "GenerationFailure", src)
      | Some (m, rest) => (inr {| alg := a; material := m |}, rest)
      end
  end.

Definition algTag (a : KeyAlg) : ascii :=
  match a with RSA => "R"%char | ECDSA => "E"%char end.

(** Modelled from the spec: [pki.EncodePrivateKey], the encoder of the key
    codec of section 4.2; the encoding selects the wire format of the
    textual key block. *)
Definition encode (key : PrivateKey) (encoding : string) : error + bytes :=
  if String.eqb encoding "pkcs1" then
    inr (pem.EncodeToMemory
           {| pem.Type_ := match alg key with
                           | RSA => "RSA PRIVATE KEY"
                           | ECDSA => "EC PRIVATE KEY"
                           end;
              pem.Bytes := material key |})
  else if String.eqb encoding "pkcs8" then
    inr (pem.EncodeToMemory
           {| pem.Type_ := "PRIVATE KEY";
              pem.Bytes := String (algTag (alg key)) (material key) |})
  else inl "UnsupportedEncoding".

(** Modelled from the spec: [pki.DecodePrivateKeyBytes], the decoder of the
    key codec of section 4.2. *)
Definition decode (data : bytes) : error + PrivateKey :=
  match pem.Decode data with
  | None => inl "MalformedKeyData"
  | Some b =>
      if String.eqb (pem.Type_ b) "RSA PRIVATE KEY" then
        inr {| alg := RSA; material := pem.Bytes b |}
      else if String.eqb (pem.Type_ b) "EC PRIVATE KEY" then
        inr {| alg := ECDSA; material := pem.Bytes b |}
      else if String.eqb (pem.Type_ b) "PRIVATE KEY" then
        match pem.Bytes b with
        | String t m =>
            if Ascii.eqb t (algTag RSA) then inr {| alg := RSA; material := m |}
            else if Ascii.eqb t (algTag ECDSA) then inr {| alg := ECDSA; material := m |}
            else inl "MalformedKeyData"
        | EmptyString => inl "MalformedKeyData"
        end
      else inl "MalformedKeyData"
  end.

(** Modelled from the spec: the unsigned CSR of section 3, subject and
    requested extensions. *)
Record CSR := { Subject : string; SANs : list string; KeyUsages : list string }.

(** Modelled from the spec: [pki.GenerateCSR], the CSR builder of section
    4.3. *)
Definition build (crt : Certificate.t) : error + CSR :=
  let s := Certificate.Spec crt in
  match CertificateSpec.CommonName s, CertificateSpec.DNSNames s with
  | EmptyString, [] => inl "InvalidSpec"
  | cn, sans =>
      inr {| Subject := cn; SANs := sans; KeyUsages := CertificateSpec.Usages s |}
  end.

(** Modelled from the spec: the public half of a key pair. *)
Definition public (key : PrivateKey) : KeyAlg * bytes :=
  (alg key, be32 (fnv32 (material key))).

Definition tbs (csr : CSR) : bytes :=
  Subject csr +:+ ";" +:+ joinWith "," (SANs csr) +:+ ";" +:+ joinWith "," (KeyUsages csr).

(** Modelled from the spec: [pki.EncodeCSR], the CSR signer of section 4.4:
    the binary structure holds the public key, a signature made with the
    private key and the subject information; the ECDSA signature reads a
    nonce from the random source. *)
Definition sign (csr : CSR) (key : PrivateKey) (src : bytes) : (error + bytes) * bytes :=
  let body nonce rest :=
    (inr (String (algTag (alg key))
            (snd (public key) +:+ be32 (fnv32 (material key +:+ nonce +:+ tbs csr))
               +:+ tbs csr)), rest) in
  match alg key with
  | RSA => body EmptyString src
  | ECDSA =>
      match src with
      | EmptyString => (inl "GenerationFailure", src)
      | String c rest => body (String c EmptyString) rest
      end
  end.

(** Modelled from the spec: the public key that a signed CSR embeds. *)
Definition embedded (der : bytes) : option (KeyAlg * bytes) :=
  match der with
  | String t (String p0 (String p1 (String p2 (String p3 _)))) =>
      let pub := String p0 (String p1 (String p2 (String p3 EmptyString))) in
      if Ascii.eqb t (algTag RSA) then Some (RSA, pub)
      else if Ascii.eqb t (algTag ECDSA) then Some (ECDSA, pub)
      else None
  | _ => None
  end.

(** The implementation: the scheme converts a certificate to itself, the
    API server accepts every request, and the annotation keys are those of
    the cert-manager API group. *)
Definition deps : Deps := {|
  Signer := PrivateKey;
  X509CertificateRequest := CSR;
  PublicKey := KeyAlg * bytes;
  Public := public;
  ParseCertificateRequest := embedded;
  CRPrivateKeyAnnotationKey := "cert-manager.io/private-key-secret-name";
  CertificateNameKey := "cert-manager.io/certificate-name";
  ConvertToVersion := inr;
  ComputeCertificateRequestName := computeName fnv32;
  GeneratePrivateKeyForCertificate := generate;
  EncodePrivateKey := encode;
  GenerateCSR := build;
  DecodePrivateKeyBytes := decode;
  EncodeCSR := sign;
  Create := fun _ req _ => inr req
|}.

(** The end-to-end scenario of the specification, with an elliptic-curve
    key. *)
Definition web : Certificate.t := {|
  Certificate.ObjectMeta := {|
    metav1.Name := "web";
    metav1.GenerateName := "";
    metav1.Namespace := "";
    metav1.Labels := Some 2%positive;
    metav1.Annotations := Some 1%positive |};
  Certificate.Spec := {|
    CertificateSpec.CommonName := "example.com";
    CertificateSpec.DNSNames := [];
    CertificateSpec.Duration := Some 7776000000000000;
    CertificateSpec.SecretName := "web-tls";
    CertificateSpec.IssuerRef :=
      {| cmmeta.Name := "ca-issuer"; cmmeta.Kind := "Issuer"; cmmeta.Group := "cert-manager.io" |};
    CertificateSpec.IsCA := false;
    CertificateSpec.Usages := ["server auth"];
    CertificateSpec.KeySize := 256;
    CertificateSpec.KeyAlgorithm := "ecdsa";
    CertificateSpec.KeyEncoding := "pkcs1" |} |}.

Definition webHeap : gmap loc (gmap string string) :=
  <[1%positive := {[ "team" := "edge" ]}]> (<[2%positive := {[ "app" := "web" ]}]> ∅).

Definition start : state := {|
  heap := webHeap;
  entropy := "k3yM4t3r14l-k3yM4t3r14l-k3yM4t3r14l-k3yM4t3r14l-n0nc3";
  trace := []
|}.

(** The same certificate with a label map of its own and another secret:
    fields that are not issuance-relevant. *)
Definition webCopy : Certificate.t := {|
  Certificate.ObjectMeta := {|
    metav1.Name := "web";
    metav1.GenerateName := "";
    metav1.Namespace := "staging";
    metav1.Labels := None;
    metav1.Annotations := Some 1%positive |};
  Certificate.Spec := {|
    CertificateSpec.CommonName := "example.com";
    CertificateSpec.DNSNames := [];
    CertificateSpec.Duration := None;
    CertificateSpec.SecretName := "web-tls-2";
    CertificateSpec.IssuerRef :=
      {| cmmeta.Name := "other-issuer"; cmmeta.Kind := "ClusterIssuer";
         cmmeta.Group := "cert-manager.io" |};
    CertificateSpec.IsCA := true;
    CertificateSpec.Usages := ["server auth"];
    CertificateSpec.KeySize := 256;
    CertificateSpec.KeyAlgorithm := "ecdsa";
    CertificateSpec.KeyEncoding := "pkcs8" |} |}.

(** The certificate of the scenario asking for a key of size 0. *)
Definition unsupported : Certificate.t := {|
  Certificate.ObjectMeta := Certificate.ObjectMeta web;
  Certificate.Spec := {|
    CertificateSpec.CommonName := "example.com";
    CertificateSpec.DNSNames := [];
    CertificateSpec.Duration := Some 7776000000000000;
    CertificateSpec.SecretName := "web-tls";
    CertificateSpec.IssuerRef :=
      {| cmmeta.Name := "ca-issuer"; cmmeta.Kind := "Issuer"; cmmeta.Group := "cert-manager.io" |};
    CertificateSpec.IsCA := false;
    CertificateSpec.Usages := ["server auth"];
    CertificateSpec.KeySize := 0;
    CertificateSpec.KeyAlgorithm := "rsa";
    CertificateSpec.KeyEncoding := "pkcs1" |} |}.

(** The certificate of the scenario asking for a key encoding that the
    codec does not know. *)
Definition unencodable : Certificate.t := {|
  Certificate.ObjectMeta := Certificate.ObjectMeta web;
  Certificate.Spec := {|
    CertificateSpec.CommonName := "example.com";
    CertificateSpec.DNSNames := [];
    CertificateSpec.Duration := Some 7776000000000000;
    CertificateSpec.SecretName := "web-tls";
    CertificateSpec.IssuerRef :=
      {| cmmeta.Name := "ca-issuer"; cmmeta.Kind := "Issuer"; cmmeta.Group := "cert-manager.io" |};
    CertificateSpec.IsCA := false;
    CertificateSpec.Usages := ["server auth"];
    CertificateSpec.KeySize := 256;
    CertificateSpec.KeyAlgorithm := "ecdsa";
    CertificateSpec.KeyEncoding := "der" |} |}.

(** The state of the scenario with a random source that has run dry. *)
Definition exhausted : state := {|
  heap := webHeap;
  entropy := EmptyString;
  trace := []
|}.

Definition webKey : PrivateKey :=
  {| alg := ECDSA; material := "k3yM4t3r14l-k3yM4t3r14l-k3yM4t3r" |}.

(** The key bytes that [Run] hands to the assembler in the scenario. *)
Definition webKeyData : bytes :=
  match encode webKey "pkcs1" with
  | inr data => data
  | inl e => e
  end.

Definition factory (crts : list Certificate.t) : Factory := {|
  ToNamespace := inr ("default", false);
  BuilderErr := None;
  ToInfos := inr (map (fun c => {| InfoObject := CertificateObject c |}) crts)
|}.

End SpecModel.

(** ** Notions used to state the properties *)

(** The state after the calls [cs] were entered and the random source was
    read down to [rest]. *)
Definition stepped (σ : state) (rest : bytes) (cs : list callee) : state :=
  {| heap := heap σ; entropy := rest; trace := trace σ ++ map Call cs |}.

(** The state after the calls [cs] and then [c] were entered, [c] having
    returned an error. *)
Definition failed (σ : state) (rest : bytes) (cs : list callee) (c : callee) : state :=
  {| heap := heap σ; entropy := rest;
     trace := trace σ ++ map Call cs ++ [Call c; Failure c] |}.

Definition logged (σ : state) (evs : list event) : state :=
  {| heap := heap σ; entropy := entropy σ; trace := trace σ ++ evs |}.

(** One assignment of the copy loop. *)
Definition write (kv : string * string) (m : gmap string string) : gmap string string :=
  <[kv.1 := kv.2]> m.

(** The map [m] with the two injected keys. *)
Definition injected (D : Deps) (crt : Certificate.t) (m : gmap string string)
  : gmap string string :=
  <[CertificateNameKey D := metav1.Name (Certificate.ObjectMeta crt)]>
    (<[CRPrivateKeyAnnotationKey D := CertificateSpec.SecretName (Certificate.Spec crt)]> m).

(** The record of [buildCertificateRequest] for a CSR and an annotations
    map. *)
Definition assembled (crt : Certificate.t) (csrPEM : bytes) (annotations : loc)
  : CertificateRequest.t := {|
    CertificateRequest.ObjectMeta := {|
      metav1.Name := "";
      metav1.GenerateName := metav1.Name (Certificate.ObjectMeta crt) +:+ "-";
      metav1.Namespace := "";
      metav1.Labels := metav1.Labels (Certificate.ObjectMeta crt);
      metav1.Annotations := Some annotations |};
    CertificateRequest.Spec := {|
      CertificateRequestSpec.CSRPEM := csrPEM;
      CertificateRequestSpec.Duration := CertificateSpec.Duration (Certificate.Spec crt);
      CertificateRequestSpec.IssuerRef := CertificateSpec.IssuerRef (Certificate.Spec crt);
      CertificateRequestSpec.IsCA := CertificateSpec.IsCA (Certificate.Spec crt);
      CertificateRequestSpec.Usages := CertificateSpec.Usages (Certificate.Spec crt) |} |}.

Definition csrBlock (der : bytes) : pem.Block :=
  {| pem.Type_ := "CERTIFICATE REQUEST"; pem.Bytes := der |}.

Definition prelude : list callee := [ConvertToVersion_; Printf_].

(** The namespace the request is created in. *)
Definition namespaceFor (cmdNamespace : string) (crt : Certificate.t) : string :=
  if String.eqb (metav1.Namespace (Certificate.ObjectMeta crt)) ""
  then cmdNamespace
  else metav1.Namespace (Certificate.ObjectMeta crt).

(** The factory resolves exactly one object and the scheme converts it to
    the certificate [crt]. *)
Definition resolves (D : Deps) (f : Factory) (cmdNamespace : string) (crt : Certificate.t)
  : Prop :=
  exists enforceNamespace info,
    ToNamespace f = inr (cmdNamespace, enforceNamespace)
    /\ BuilderErr f = None
    /\ ToInfos f = inr [info]
    /\ ConvertToVersion D (InfoObject info) = inr (CertificateObject crt).

(** A map value of a Go state is nil or refers to a map of the heap. *)
Definition allocated (h : gmap loc (gmap string string)) (m : mapref) : Prop :=
  match m with
  | Some l => is_Some (h !! l)
  | None => True
  end.

(** The library calls of an invocation, in program order. *)
Definition pipeline : list callee :=
  [ConvertToVersion_; Printf_; ComputeCertificateRequestName_;
   GeneratePrivateKeyForCertificate_; EncodePrivateKey_; GenerateCSR_;
   DecodePrivateKeyBytes_; EncodeCSR_; EncodeToMemory_].

(** The events of an invocation up to the create call, and those of an
    invocation that succeeds. *)
Definition attempted (l : loc) : list event :=
  map Call pipeline ++ [Make l; Call Create_].

Definition fullRun (l : loc) (ns : string) (req : CertificateRequest.t) : list event :=
  attempted l ++ [Created ns req].

(** Runs of the scenario. *)
Definition webCSR : (error + bytes) * state :=
  generateCSR SpecModel.deps SpecModel.web SpecModel.webKeyData SpecModel.start.

Definition webPEM : bytes :=
  match fst webCSR with inr out => out | inl e => e end.

Definition webRun : (error + unit) * state :=
  Run SpecModel.deps (SpecModel.factory [SpecModel.web]) SpecModel.start.

Definition webBuild : (error + CertificateRequest.t) * state :=
  buildCertificateRequest SpecModel.deps SpecModel.web "web-364324867"
    SpecModel.webKeyData SpecModel.start.

Ltac norm :=
  cbn [heap entropy trace map fst snd]; rewrite <- ?app_assoc; cbn [app].

Ltac euclid := zify; Z.to_euclidean_division_equations; lia.

(** ** The options of the command *)

(** [resource.FilenameOptions] of [k8s.io/cli-runtime] *)
Module resource.
Record FilenameOptions := {
  Filenames : list string;
  Kustomize : string;
  Recursive : bool
}.
End resource.

(** The libraries behind [Complete]: the REST configuration, the
    clientset made from it, the streams, and the check of the file name
    flags, which only reads them.  A Go result [(v, err)] is a pair: the
    value is assigned whether or not the error is nil. *)
Record Cli := {
  Config : Type;
  Interface : Type;
  Streams : Type;
  (** [FilenameOptions.RequireFilenameOrKustomize] *)
  RequireFilenameOrKustomize : resource.FilenameOptions -> option error;
  (** [cmclient.NewForConfig] *)
  NewForConfig : option Config -> option Interface * option error
}.

Section options.
Context (C : Cli).

Record Options := {
  CMClient : option (Interface C);
  RESTConfig : option (Config C);
  FilenameOptions : resource.FilenameOptions;
  IOStreams : Streams C
}.

Definition NewOptions (ioStreams : Streams C) : Options :=
  {| CMClient := None;
     RESTConfig := None;
     FilenameOptions :=
       {| resource.Filenames := []; resource.Kustomize := ""; resource.Recursive := false |};
     IOStreams := ioStreams |}.

(** [Complete] updates the options in place: the options after the call
    and the error it returns.  [ToRESTConfig] is the result of
    [f.ToRESTConfig()]. *)
Definition Complete (o : Options) (ToRESTConfig : option (Config C) * option error)
  : Options * option error :=
  match RequireFilenameOrKustomize C (FilenameOptions o) with
  | Some err => (o, Some err)
  | None =>
      let '(cfg, err) := ToRESTConfig in
      let o := {| CMClient := CMClient o; RESTConfig := cfg;
                  FilenameOptions := FilenameOptions o; IOStreams := IOStreams o |} in
      match err with
      | Some e => (o, Some e)
      | None =>
          let '(client, err) := NewForConfig C (RESTConfig o) in
          let o := {| CMClient := client; RESTConfig := RESTConfig o;
                      FilenameOptions := FilenameOptions o; IOStreams := IOStreams o |} in
          match err with
          | Some e => (o, Some e)
          | None => (o, None)
          end
      end
  end.

End options.

Arguments CMClient {C} o.
Arguments RESTConfig {C} o.
Arguments FilenameOptions {C} o.
Arguments IOStreams {C} o.
Arguments NewOptions {C} ioStreams.
Arguments Complete {C} o ToRESTConfig.

(** ** Implementations that differ in one package *)

(** [D] with another request namer. *)
Definition withNamer (D : Deps) (namer : Certificate.t -> error + string) : Deps := {|
  Signer := Signer D;
  X509CertificateRequest := X509CertificateRequest D;
  PublicKey := PublicKey D;
  Public := Public D;
  ParseCertificateRequest := ParseCertificateRequest D;
  CRPrivateKeyAnnotationKey := CRPrivateKeyAnnotationKey D;
  CertificateNameKey := CertificateNameKey D;
  ConvertToVersion := ConvertToVersion D;
  ComputeCertificateRequestName := namer;
  GeneratePrivateKeyForCertificate := GeneratePrivateKeyForCertificate D;
  EncodePrivateKey := EncodePrivateKey D;
  GenerateCSR := GenerateCSR D;
  DecodePrivateKeyBytes := DecodePrivateKeyBytes D;
  EncodeCSR := EncodeCSR D;
  Create := Create D
|}.

(** [D] with another API server. *)
Definition withCreate (D : Deps)
    (create : string -> CertificateRequest.t -> gmap loc (gmap string string)
              -> error + CertificateRequest.t) : Deps := {|
  Signer := Signer D;
  X509CertificateRequest := X509CertificateRequest D;
  PublicKey := PublicKey D;
  Public := Public D;
  ParseCertificateRequest := ParseCertificateRequest D;
  CRPrivateKeyAnnotationKey := CRPrivateKeyAnnotationKey D;
  CertificateNameKey := CertificateNameKey D;
  ConvertToVersion := ConvertToVersion D;
  ComputeCertificateRequestName := ComputeCertificateRequestName D;
  GeneratePrivateKeyForCertificate := GeneratePrivateKeyForCertificate D;
  EncodePrivateKey := EncodePrivateKey D;
  GenerateCSR := GenerateCSR D;
  DecodePrivateKeyBytes := DecodePrivateKeyBytes D;
  EncodeCSR := EncodeCSR D;
  Create := create
|}.

(** ** More scenarios *)

(** An API server that already has the request. *)
Definition conflicting : Deps :=
  withCreate SpecModel.deps (fun _ _ _ => inl "AlreadyExists").

(** Libraries for [Complete]: configurations and clients are named by
    strings, the flags need a file name or a kustomization directory. *)
Definition sampleCli : Cli := {|
  Config := string;
  Interface := string;
  Streams := unit;
  RequireFilenameOrKustomize := fun fo =>
    match resource.Filenames fo, resource.Kustomize fo with
    | [], EmptyString => Some "must specify one of -f and -k"
    | _, _ => None
    end;
  NewForConfig := fun cfg =>
    match cfg with
    | Some c => (Some ("client of " +:+ c), None)
    | None => (None, Some "no configuration")
    end
|}.

Definition sampleOptions : Options sampleCli :=
  Build_Options sampleCli None None
    {| resource.Filenames := ["web.yaml"]; resource.Kustomize := "";
       resource.Recursive := false |}
    tt.

(** A factory whose one manifest is an issuer, not a certificate. *)
Definition issuerFactory : Factory := {|
  ToNamespace := inr ("default", false);
  BuilderErr := None;
  ToInfos := inr [{| InfoObject := OtherObject "Issuer" |}]
|}.

(** Further runs of the scenario. *)
Definition stagingRun : (error + unit) * state :=
  Run SpecModel.deps (SpecModel.factory [SpecModel.webCopy]) SpecModel.start.

Definition firstBuild : (error + CertificateRequest.t) * state :=
  buildCertificateRequest SpecModel.deps SpecModel.web "web-364324867"
    SpecModel.webKeyData SpecModel.start.

Definition secondBuild : (error + CertificateRequest.t) * state :=
  buildCertificateRequest SpecModel.deps SpecModel.webCopy "web-364324867"
    SpecModel.webKeyData (snd firstBuild).

(** The record of a build that succeeded. *)
Definition built (b : (error + CertificateRequest.t) * state) : CertificateRequest.t :=
  match fst b with
  | inr cr => cr
  | inl _ =>
      {| CertificateRequest.ObjectMeta :=
           {| metav1.Name := EmptyString; metav1.GenerateName := EmptyString;
              metav1.Namespace := EmptyString; metav1.Labels := None;
              metav1.Annotations := None |};
         CertificateRequest.Spec :=
           {| CertificateRequestSpec.CSRPEM := EmptyString;
              CertificateRequestSpec.Duration := None;
              CertificateRequestSpec.IssuerRef :=
                {| cmmeta.Name := EmptyString; cmmeta.Kind := EmptyString;
                   cmmeta.Group := EmptyString |};
              CertificateRequestSpec.IsCA := false;
              CertificateRequestSpec.Usages := [] |} |}
  end.

Definition unsupportedRun : (error + unit) * state :=
  Run SpecModel.deps (SpecModel.factory [SpecModel.unsupported]) SpecModel.start.

Ltac traces :=
  unfold logged, failed, stepped, fullRun, attempted, pipeline;
  cbn [heap entropy trace map app]; rewrite <- ?app_assoc; cbn [app]; reflexivity.

(** * Properties *)

(** ** Base64 *)

Lemma lor_shiftl_add (a b n : N) : b < 2 ^ n -> N.lor (N.shiftl a n) b = a * 2 ^ n + b.
Proof.
  intros Hb. rewrite N.shiftl_mul_pow2.
  assert (Hland : N.land (a * 2 ^ n) b = 0).
  { apply N.bits_inj_0. intros m. rewrite N.land_spec.
    destruct (N.lt_ge_cases m n) as [Hlt|Hge].
    - rewrite N.mul_pow2_bits_low by assumption. reflexivity.
    - rewrite <- (N.mod_small b (2 ^ n)) by assumption.
      rewrite N.mod_pow2_bits_high by assumption. apply andb_false_r. }
  rewrite <- N.lxor_lor by assumption. symmetry. apply N.add_nocarry_lxor. assumption.
Qed.

Lemma u_bound (c : ascii) : base64.u c < 256.
Proof. apply N_ascii_bounded. Qed.

Lemma decodeMap_encode (i : N) : i < 64 -> base64.decodeMap (base64.encode i) = Some i.
Proof.
  intros Hi.
  assert (H : forallb (fun n => match base64.decodeMap (base64.encode (N.of_nat n)) with
                                | Some j => N.eqb j (N.of_nat n) | None => false end)
                (seq 0 64) = true) by (vm_compute; reflexivity).
  rewrite forallb_forall in H. specialize (H (N.to_nat i)).
  rewrite N2Nat.id in H.
  destruct (base64.decodeMap (base64.encode i)) as [j|].
  - f_equal. apply N.eqb_eq. apply H. apply in_seq. lia.
  - discriminate H. apply in_seq. lia.
Qed.

Lemma lor_add_disjoint (a b n : N) : a mod 2 ^ n = 0 -> b < 2 ^ n -> N.lor a b = a + b.
Proof.
  intros Ha Hb.
  assert (Hpow : 2 ^ n <> 0) by (apply N.pow_nonzero; discriminate).
  pose proof (N.div_mod a (2 ^ n) Hpow) as Hdm. rewrite Ha, N.add_0_r in Hdm.
  rewrite Hdm at 1. rewrite (N.mul_comm (2 ^ n)), <- N.shiftl_mul_pow2.
  rewrite lor_shiftl_add by assumption. lia.
Qed.

Lemma quantum_value (a b c : ascii) :
  base64.quantum a b c = base64.u a * 65536 + base64.u b * 256 + base64.u c.
Proof.
  pose proof (u_bound a). pose proof (u_bound b). pose proof (u_bound c).
  unfold base64.quantum.
  rewrite (lor_add_disjoint (N.shiftl (base64.u a) 16) (N.shiftl (base64.u b) 8) 16).
  - rewrite (lor_add_disjoint _ (base64.u c) 8).
    + rewrite !N.shiftl_mul_pow2. reflexivity.
    + rewrite !N.shiftl_mul_pow2. change (2 ^ 16) with (256 * 2 ^ 8).
      rewrite N.mul_assoc, <- N.mul_add_distr_r. apply N.Div0.mod_mul.
    + assumption.
  - rewrite N.shiftl_mul_pow2. apply N.Div0.mod_mul.
  - rewrite N.shiftl_mul_pow2. change (2 ^ 8) with 256. change (2 ^ 16) with 65536. lia.
Qed.

Lemma dquantum_value (q0 q1 q2 q3 : N) :
  q0 < 64 -> q1 < 64 -> q2 < 64 -> q3 < 64 ->
  base64.dquantum q0 q1 q2 q3 = q0 * 262144 + q1 * 4096 + q2 * 64 + q3.
Proof.
  intros H0 H1 H2 H3. unfold base64.dquantum.
  rewrite !N.shiftl_mul_pow2.
  change (2 ^ 18) with (4096 * 2 ^ 6); change (2 ^ 12) with (64 * 2 ^ 6).
  rewrite (lor_add_disjoint (q0 * (4096 * 2 ^ 6)) (q1 * (64 * 2 ^ 6)) 18).
  - rewrite (lor_add_disjoint _ (q2 * 2 ^ 6) 12).
    + rewrite (lor_add_disjoint _ q3 6).
      * change (2 ^ 6) with 64. lia.
      * rewrite !N.mul_assoc, <- !N.mul_add_distr_r. apply N.Div0.mod_mul.
      * assumption.
    + change (2 ^ 6) with 64. change (2 ^ 12) with 4096.
      replace (q0 * (4096 * 64) + q1 * (64 * 64)) with ((q0 * 64 + q1) * 4096) by lia.
      apply N.Div0.mod_mul.
    + change (2 ^ 6) with 64. change (2 ^ 12) with 4096. lia.
  - change (4096 * 2 ^ 6) with (2 ^ 18). apply N.Div0.mod_mul.
  - change (2 ^ 6) with 64. change (2 ^ 18) with 262144. lia.
Qed.
Lemma sextet_spec (val k : N) :
  base64.sextet val k = base64.encode ((val / 2 ^ k) mod 64).
Proof.
  unfold base64.sextet. rewrite N.shiftr_div_pow2.
  change 63 with (N.ones 6). rewrite N.land_ones. reflexivity.
Qed.

Lemma byte_spec (n : N) : base64.byte n = ascii_of_N (n mod 256).
Proof. unfold base64.byte. change 255 with (N.ones 8). rewrite N.land_ones. reflexivity. Qed.

Lemma sextets_join (val : N) :
  val < 16777216 ->
  ((val / 262144) mod 64) * 262144 + ((val / 4096) mod 64) * 4096
    + ((val / 64) mod 64) * 64 + (val / 1) mod 64 = val.
Proof. intros H. euclid. Qed.

Lemma bytes_split (A B C : N) :
  A < 256 -> B < 256 -> C < 256 ->
  let val := A * 65536 + B * 256 + C in
  (val / 65536) mod 256 = A /\ (val / 256) mod 256 = B /\ val mod 256 = C.
Proof. intros HA HB HC val. subst val. repeat split; euclid. Qed.

Lemma string_ind3 (P : string -> Prop) :
  P EmptyString ->
  (forall a, P (String a EmptyString)) ->
  (forall a b, P (String a (String b EmptyString))) ->
  (forall a b c s, P s -> P (String a (String b (String c s)))) ->
  forall s, P s.
Proof.
  intros H0 H1 H2 H3. fix IH 1.
  intros [|a [|b [|c s]]]; [apply H0 | apply H1 | apply H2 | apply H3, IH].
Qed.

Lemma encode_not_pad (i : N) : i < 64 -> Ascii.eqb (base64.encode i) base64.padChar = false.
Proof.
  intros Hi.
  assert (H : forallb (fun n => negb (Ascii.eqb (base64.encode (N.of_nat n)) base64.padChar))
                (seq 0 64) = true) by (vm_compute; reflexivity).
  rewrite forallb_forall in H. specialize (H (N.to_nat i)).
  rewrite N2Nat.id in H. apply negb_true_iff, H, in_seq. lia.
Qed.

Lemma mod64_lt (n : N) : n mod 64 < 64.
Proof. apply N.mod_lt. discriminate. Qed.

Lemma decode_sextet (val k : N) :
  base64.decodeMap (base64.sextet val k) = Some ((val / 2 ^ k) mod 64).
Proof. rewrite sextet_spec. apply decodeMap_encode, mod64_lt. Qed.

Lemma sextet_not_pad (val k : N) : Ascii.eqb (base64.sextet val k) base64.padChar = false.
Proof. rewrite sextet_spec. apply encode_not_pad, mod64_lt. Qed.

Lemma ascii_of_u (a : ascii) (n : N) : n = base64.u a -> ascii_of_N n = a.
Proof. intros ->. apply ascii_N_embedding. Qed.

Lemma DecodeString_EncodeToString (s : string) :
  base64.DecodeString (base64.EncodeToString s) = Some s.
Proof.
  induction s as [|a|a b|a b c s IH] using string_ind3.
  - reflexivity.
  - cbn [base64.EncodeToString base64.DecodeString].
    rewrite !decode_sextet, Ascii.eqb_refl.
    rewrite dquantum_value by (try apply mod64_lt; lia).
    rewrite byte_spec, N.shiftr_div_pow2, N.shiftl_mul_pow2.
    pose proof (u_bound a) as Ha.
    change (2 ^ 16) with 65536. change (2 ^ 18) with 262144. change (2 ^ 12) with 4096.
    do 2 f_equal. apply ascii_of_u. euclid.
  - cbn [base64.EncodeToString base64.DecodeString].
    rewrite !decode_sextet, sextet_not_pad, Ascii.eqb_refl.
    rewrite dquantum_value by (try apply mod64_lt; lia).
    pose proof (u_bound a) as Ha. pose proof (u_bound b) as Hb.
    rewrite (lor_add_disjoint _ _ 16).
    2:{ rewrite N.shiftl_mul_pow2. apply N.Div0.mod_mul. }
    2:{ rewrite N.shiftl_mul_pow2. change (2 ^ 8) with 256. change (2 ^ 16) with 65536. lia. }
    rewrite !byte_spec, !N.shiftr_div_pow2, !N.shiftl_mul_pow2.
    change (2 ^ 16) with 65536. change (2 ^ 18) with 262144. change (2 ^ 12) with 4096.
    change (2 ^ 8) with 256. change (2 ^ 6) with 64.
    f_equal. f_equal; [|f_equal]; apply ascii_of_u; euclid.
  - cbn [base64.EncodeToString base64.DecodeString].
    rewrite !decode_sextet, !sextet_not_pad, IH.
    rewrite dquantum_value by apply mod64_lt.
    pose proof (u_bound a) as Ha. pose proof (u_bound b) as Hb. pose proof (u_bound c) as Hc.
    change (2 ^ 18) with 262144. change (2 ^ 12) with 4096. change (2 ^ 6) with 64.
    change (2 ^ 0) with 1.
    rewrite sextets_join by (rewrite quantum_value; lia).
    rewrite quantum_value, !byte_spec, !N.shiftr_div_pow2.
    change (2 ^ 16) with 65536. change (2 ^ 8) with 256.
    destruct (bytes_split _ _ _ Ha Hb Hc) as (-> & -> & ->).
    unfold base64.u. rewrite !ascii_N_embedding. reflexivity.
Qed.

(** ** The PEM envelope *)

Lemma append_nil (s : string) : EmptyString +:+ s = s.
Proof. reflexivity. Qed.

Lemma append_cons (c : ascii) (a b : string) : String c a +:+ b = String c (a +:+ b).
Proof. reflexivity. Qed.

Lemma append_assoc (a b c : string) : (a +:+ b) +:+ c = a +:+ (b +:+ c).
Proof. induction a as [|x a IH]; rewrite ?append_nil, ?append_cons, ?IH; reflexivity. Qed.

Lemma allChars_app P (a b : string) :
  allChars P (a +:+ b) = allChars P a && allChars P b.
Proof.
  induction a as [|x a IH]; rewrite ?append_nil, ?append_cons; cbn [allChars];
    [reflexivity | rewrite IH, andb_assoc; reflexivity].
Qed.

Lemma encode_bodyChar (i : N) : bodyChar (base64.encode i) = true.
Proof.
  destruct (N.lt_ge_cases i 64) as [Hi|Hi].
  - assert (H : forallb (fun n => bodyChar (base64.encode (N.of_nat n))) (seq 0 64) = true)
      by (vm_compute; reflexivity).
    rewrite forallb_forall in H. specialize (H (N.to_nat i)).
    rewrite N2Nat.id in H. apply H, in_seq. lia.
  - unfold base64.encode.
    assert (Hget : forall (n : nat) s, (String.length s <= n)%nat -> String.get n s = None).
    { intros n s. revert n. induction s as [|c s IH]; intros [|n] Hn; cbn in *;
        try reflexivity; try lia. apply IH. lia. }
    rewrite Hget; [reflexivity|]. cbn. lia.
Qed.

Lemma EncodeToString_bodyChar (s : string) :
  allChars bodyChar (base64.EncodeToString s) = true.
Proof.
  induction s as [|a|a b|a b c s IH] using string_ind3;
    cbn [base64.EncodeToString allChars]; unfold base64.sextet;
    rewrite ?encode_bodyChar, ?IH; reflexivity.
Qed.

Lemma EncodeToString_empty (s : string) :
  base64.EncodeToString s = EmptyString -> s = EmptyString.
Proof. destruct s as [|a [|b [|c s]]]; cbn; [reflexivity | discriminate ..]. Qed.

Lemma bodyChar_not_whitespace c : bodyChar c = true -> isWhitespace c = false.
Proof. unfold bodyChar. intros [_ H]%andb_true_iff. apply negb_true_iff, H. Qed.

Lemma bodyChar_not_nl c : bodyChar c = true -> Ascii.eqb c nl = false.
Proof.
  intros H%bodyChar_not_whitespace. unfold isWhitespace in H.
  apply orb_false_iff in H as [_ H]. exact H.
Qed.

Lemma bodyChar_not_dash c : bodyChar c = true -> Ascii.eqb "-" c = false.
Proof.
  unfold bodyChar. intros [[H _]%andb_true_iff _]%andb_true_iff.
  rewrite Ascii.eqb_sym. apply negb_true_iff, H.
Qed.

Lemma bodyChar_not_colon c : bodyChar c = true -> Ascii.eqb ":" c = false.
Proof.
  unfold bodyChar. intros [[_ H]%andb_true_iff _]%andb_true_iff.
  rewrite Ascii.eqb_sym. apply negb_true_iff, H.
Qed.

Lemma lineBreaker_cons (used : nat) (c : ascii) (s : string) :
  pem.lineBreaker used (String c s) =
    if Nat.eqb (S used) pem.pemLineLength
    then String c (String nl (pem.lineBreaker 0 s))
    else String c (pem.lineBreaker (S used) s).
Proof. reflexivity. Qed.

Lemma wrapped_cons (c : ascii) (s : string) :
  wrapped (String c s) =
    (if Ascii.eqb c nl
     then match s with String d _ => bodyChar d | EmptyString => false end
     else bodyChar c) && wrapped s.
Proof. reflexivity. Qed.

Lemma removeWhitespace_cons (c : ascii) (s : string) :
  pem.removeWhitespace (String c s) =
    if isWhitespace c then pem.removeWhitespace s else String c (pem.removeWhitespace s).
Proof. reflexivity. Qed.

(** What [lineBreaker] writes for a text that is not empty: lines, the last
    one closed by a line feed. *)
Lemma lineBreaker_wrapped (s : string) :
  allChars bodyChar s = true ->
  forall c s0 used, s = String c s0 ->
  exists body,
    pem.lineBreaker used s = String c body +:+ String nl EmptyString
    /\ wrapped (String c body) = true
    /\ pem.removeWhitespace (String c body) = s.
Proof.
  induction s as [|x s IH]; intros Hall c s0 used Heq; [discriminate|].
  injection Heq as -> ->. cbn [allChars] in Hall. apply andb_true_iff in Hall as [Hc Hs].
  pose proof (bodyChar_not_whitespace _ Hc) as Hws.
  pose proof (bodyChar_not_nl _ Hc) as Hnl.
  rewrite lineBreaker_cons.
  destruct s0 as [|d s1].
  - exists EmptyString. cbn [pem.lineBreaker].
    rewrite wrapped_cons, removeWhitespace_cons, Hws, Hnl, Hc.
    destruct (Nat.eqb (S used) pem.pemLineLength); repeat split; reflexivity.
  - assert (Hd : bodyChar d = true).
    { cbn [allChars] in Hs. apply andb_true_iff in Hs as [Hd _]. exact Hd. }
    destruct (Nat.eqb (S used) pem.pemLineLength).
    + destruct (IH Hs d s1 O eq_refl) as (body & -> & Hw & Hrm).
      exists (String nl (String d body)). repeat split.
      * rewrite wrapped_cons, Hnl, Hc, wrapped_cons.
        change (Ascii.eqb nl nl) with true. cbn iota. rewrite Hd, Hw. reflexivity.
      * rewrite removeWhitespace_cons, Hws, removeWhitespace_cons.
        change (isWhitespace nl) with true. cbn iota. rewrite Hrm. reflexivity.
    + destruct (IH Hs d s1 (S used) eq_refl) as (body & -> & Hw & Hrm).
      exists (String d body). repeat split.
      * rewrite wrapped_cons, Hnl, Hc, Hw. reflexivity.
      * rewrite removeWhitespace_cons, Hws, Hrm. reflexivity.
Qed.

Lemma cutPrefix_app (p s : string) : cutPrefix p (p +:+ s) = Some s.
Proof.
  induction p as [|c p IH]; rewrite ?append_nil, ?append_cons; cbn [cutPrefix];
    [reflexivity | rewrite Ascii.eqb_refl; exact IH].
Qed.

(** The end marker is found right after the wrapped text. *)
Lemma Index_pemEnd (body t : string) :
  wrapped body = true ->
  Index pem.pemEnd (body +:+ pem.pemEnd +:+ t) = Some (body, t).
Proof.
  induction body as [|c body IH]; intros Hw.
  - rewrite append_nil.
    destruct (pem.pemEnd +:+ t) eqn:E; [discriminate|]. cbn [Index]. rewrite <- E.
    rewrite cutPrefix_app. reflexivity.
  - cbn [wrapped] in Hw. apply andb_true_iff in Hw as [Hc Hw].
    rewrite append_cons. cbn [Index].
    assert (Hno : cutPrefix pem.pemEnd (String c (body +:+ pem.pemEnd +:+ t)) = None).
    { unfold pem.pemEnd at 1. cbn [cutPrefix]. rewrite Ascii.eqb_sym.
      destruct (Ascii.eqb c nl).
      - destruct body as [|d body]; [discriminate|]. rewrite append_cons. cbn [cutPrefix].
        rewrite (bodyChar_not_dash _ Hc). reflexivity.
      - reflexivity. }
    rewrite Hno, (IH Hw). reflexivity.
Qed.

Lemma labelChar_not_nl c : labelChar c = true -> Ascii.eqb c nl = false.
Proof. unfold labelChar. intros [H _]%andb_true_iff. apply negb_true_iff, H. Qed.

Lemma labelChar_not_colon c : labelChar c = true -> Ascii.eqb ":" c = false.
Proof.
  unfold labelChar. intros [_ H]%andb_true_iff.
  rewrite Ascii.eqb_sym. apply negb_true_iff, H.
Qed.

Lemma splitLine_label (ty t : string) :
  allChars labelChar ty = true ->
  pem.splitLine (ty +:+ pem.pemEndOfLine +:+ String nl t) = (ty +:+ pem.pemEndOfLine, t).
Proof.
  induction ty as [|c ty IH]; intros H.
  - reflexivity.
  - cbn [allChars] in H. apply andb_true_iff in H as [Hc H].
    rewrite !append_cons. cbn [pem.splitLine].
    rewrite (labelChar_not_nl _ Hc), (IH H). reflexivity.
Qed.

Lemma dropCR_label (ty : string) :
  pem.dropCR (ty +:+ pem.pemEndOfLine) = ty +:+ pem.pemEndOfLine.
Proof.
  induction ty as [|c ty IH]; [reflexivity|].
  rewrite append_cons. destruct (ty +:+ pem.pemEndOfLine) as [|d r] eqn:E.
  - destruct ty; discriminate E.
  - cbn [pem.dropCR]. cbn [pem.dropCR] in IH. rewrite IH. reflexivity.
Qed.

Lemma TrimRight_label (ty : string) :
  TrimRight (ty +:+ pem.pemEndOfLine) = ty +:+ pem.pemEndOfLine.
Proof.
  induction ty as [|c ty IH]; [reflexivity|].
  rewrite append_cons. cbn [TrimRight]. rewrite IH.
  destruct (ty +:+ pem.pemEndOfLine) eqn:E; [destruct ty; discriminate E | reflexivity].
Qed.

Lemma getLine_label (ty t : string) :
  allChars labelChar ty = true ->
  pem.getLine (ty +:+ pem.pemEndOfLine +:+ String nl t) = (ty +:+ pem.pemEndOfLine, t).
Proof.
  intros H. unfold pem.getLine. rewrite (splitLine_label _ _ H).
  rewrite dropCR_label, TrimRight_label. reflexivity.
Qed.

Lemma append_length (a b : string) :
  String.length (a +:+ b) = (String.length a + String.length b)%nat.
Proof. induction a as [|c a IH]; rewrite ?append_nil, ?append_cons; cbn; [|rewrite IH]; reflexivity. Qed.

Lemma cutSuffix_app (suf ty : string) : pem.cutSuffix suf (ty +:+ suf) = Some ty.
Proof.
  induction ty as [|c ty IH].
  - rewrite append_nil. destruct suf; cbn [pem.cutSuffix]; rewrite String.eqb_refl; reflexivity.
  - rewrite append_cons. cbn [pem.cutSuffix].
    destruct (String.eqb (String c (ty +:+ suf)) suf) eqn:E.
    + apply String.eqb_eq in E. apply (f_equal String.length) in E.
      cbn [String.length] in E. rewrite append_length in E. lia.
    + rewrite IH. reflexivity.
Qed.

Lemma containsByte_app (c : ascii) (a b : string) :
  containsByte c (a +:+ b) = containsByte c a || containsByte c b.
Proof.
  induction a as [|x a IH]; rewrite ?append_nil, ?append_cons; cbn [containsByte];
    [reflexivity | rewrite IH, orb_assoc; reflexivity].
Qed.

Lemma containsByte_splitLine (c : ascii) (s : string) :
  containsByte c s = false -> containsByte c (fst (pem.splitLine s)) = false.
Proof.
  induction s as [|x s IH]; [reflexivity|].
  cbn [containsByte pem.splitLine]. intros [Hx Hs]%orb_false_iff.
  destruct (Ascii.eqb x nl); [reflexivity|].
  specialize (IH Hs). destruct (pem.splitLine s) as [l r].
  cbn [fst containsByte] in *. rewrite Hx, IH. reflexivity.
Qed.

Lemma containsByte_dropCR (c : ascii) (s : string) :
  containsByte c s = false -> containsByte c (pem.dropCR s) = false.
Proof.
  induction s as [|x s IH]; [reflexivity|].
  cbn [containsByte]. intros [Hx Hs]%orb_false_iff.
  destruct s as [|y s].
  - cbn [pem.dropCR]. destruct (Ascii.eqb x carriageReturn); cbn [containsByte]; rewrite ?Hx; reflexivity.
  - change (pem.dropCR (String x (String y s))) with (String x (pem.dropCR (String y s))).
    cbn [containsByte]. rewrite Hx, (IH Hs). reflexivity.
Qed.

Lemma containsByte_TrimRight (c : ascii) (s : string) :
  containsByte c s = false -> containsByte c (TrimRight s) = false.
Proof.
  induction s as [|x s IH]; [reflexivity|].
  cbn [containsByte TrimRight]. intros [Hx Hs]%orb_false_iff. specialize (IH Hs).
  destruct (TrimRight s) as [|y t].
  - destruct (Ascii.eqb x space || Ascii.eqb x tab); cbn [containsByte];
      rewrite ?Hx; reflexivity.
  - cbn [containsByte] in *. rewrite Hx, IH. reflexivity.
Qed.

Lemma containsByte_getLine (c : ascii) (s : string) :
  containsByte c s = false -> containsByte c (fst (pem.getLine s)) = false.
Proof.
  intros H. unfold pem.getLine.
  pose proof (containsByte_splitLine c s H) as Hl.
  destruct (pem.splitLine s) as [l r]. cbn [fst] in *.
  apply containsByte_TrimRight, containsByte_dropCR, Hl.
Qed.

Lemma containsByte_label (ty : string) :
  allChars labelChar ty = true -> containsByte ":" ty = false.
Proof.
  induction ty as [|c ty IH]; [reflexivity|]. cbn [allChars containsByte].
  intros [Hc H]%andb_true_iff. rewrite (labelChar_not_colon _ Hc), (IH H). reflexivity.
Qed.

Lemma containsByte_wrapped (s : string) :
  wrapped s = true -> containsByte ":" s = false.
Proof.
  induction s as [|c s IH]; [reflexivity|]. rewrite wrapped_cons. cbn [containsByte].
  intros [Hc H]%andb_true_iff. rewrite (IH H), orb_false_r.
  destruct (Ascii.eqb c nl) eqn:E.
  - apply Ascii.eqb_eq in E. subst c. reflexivity.
  - apply bodyChar_not_colon, Hc.
Qed.

(** The tail shared by both cases of the round trip: what follows the end
    marker is the label, five dashes and a line feed. *)
Lemma Decode_trailer (ty body : string) (der : bytes) :
  base64.DecodeString (pem.removeWhitespace body) = Some der ->
  match cutPrefix ty (ty +:+ pem.pemEndOfLine +:+ String nl EmptyString) with
  | None => None
  | Some t1 =>
      match cutPrefix pem.pemEndOfLine t1 with
      | None => None
      | Some restOfEndLine =>
          match fst (pem.getLine restOfEndLine) with
          | EmptyString =>
              match base64.DecodeString (pem.removeWhitespace body) with
              | Some b => Some {| pem.Type_ := ty; pem.Bytes := b |}
              | None => None
              end
          | _ => None
          end
      end
  end = Some {| pem.Type_ := ty; pem.Bytes := der |}.
Proof. intros ->. rewrite !cutPrefix_app. reflexivity. Qed.

Lemma Decode_EncodeToMemory (ty : string) (der : bytes) :
  allChars labelChar ty = true ->
  pem.Decode (pem.EncodeToMemory {| pem.Type_ := ty; pem.Bytes := der |})
  = Some {| pem.Type_ := ty; pem.Bytes := der |}.
Proof.
  intros Hty. unfold pem.Decode, pem.EncodeToMemory. cbn [pem.Type_ pem.Bytes].
  rewrite cutPrefix_app.
  change (String nl EmptyString +:+ ?x) with (String nl x).
  rewrite (getLine_label _ _ Hty), cutSuffix_app.
  pose proof (DecodeString_EncodeToString der) as Hrt.
  pose proof (EncodeToString_bodyChar der) as Hbody.
  destruct (base64.EncodeToString der) as [|c s0] eqn:Henc.
  - apply EncodeToString_empty in Henc. subst der.
    cbn [pem.lineBreaker]. rewrite append_nil.
    rewrite cutPrefix_app, containsByte_getLine.
    2:{ rewrite !containsByte_app, (containsByte_label _ Hty). reflexivity. }
    rewrite (Decode_trailer ty EmptyString EmptyString eq_refl). reflexivity.
  - destruct (lineBreaker_wrapped _ Hbody c s0 O eq_refl) as (body & -> & Hw & Hrm).
    rewrite append_assoc.
    change (String nl EmptyString +:+ from1 pem.pemEnd +:+ ?x) with (pem.pemEnd +:+ x).
    rewrite containsByte_getLine.
    2:{ rewrite !containsByte_app, (containsByte_wrapped _ Hw), (containsByte_label _ Hty).
        reflexivity. }
    rewrite (Index_pemEnd _ _ Hw).
    assert (Hcut : forall t, cutPrefix (from1 pem.pemEnd) (String c body +:+ t) = None).
    { intros t. rewrite append_cons. change (from1 pem.pemEnd) with "-----END ".
      cbn [cutPrefix]. cbn [wrapped] in Hw. apply andb_true_iff in Hw as [Hc _].
      destruct (Ascii.eqb c nl) eqn:E.
      - apply Ascii.eqb_eq in E. subst c. reflexivity.
      - rewrite (bodyChar_not_dash _ Hc). reflexivity. }
    rewrite Hcut, append_cons.
    apply Decode_trailer. rewrite Hrm. exact Hrt.
Qed.

(** ** The command as equations *)

Lemma state_eta (σ : state) :
  {| heap := heap σ; entropy := entropy σ; trace := trace σ |} = σ.
Proof. destruct σ; reflexivity. Qed.

Section equations.
Context (D : Deps).

Lemma generateCSR_eq (crt : Certificate.t) (pk : bytes) (σ : state) :
  generateCSR D crt pk σ =
    match GenerateCSR D crt with
    | inl e => (inl e, failed σ (entropy σ) [] GenerateCSR_)
    | inr csr =>
        match DecodePrivateKeyBytes D pk with
        | inl e => (inl e, failed σ (entropy σ) [GenerateCSR_] DecodePrivateKeyBytes_)
        | inr signer =>
            match EncodeCSR D csr signer (entropy σ) with
            | (inl e, rest) =>
                (inl e, failed σ rest [GenerateCSR_; DecodePrivateKeyBytes_] EncodeCSR_)
            | (inr der, rest) =>
                (inr (pem.EncodeToMemory (csrBlock der)),
                 stepped σ rest
                   [GenerateCSR_; DecodePrivateKeyBytes_; EncodeCSR_; EncodeToMemory_])
            end
        end
    end.
Proof.
  unfold generateCSR, call, bind, log, random, ret, throw, stepped, failed, id.
  destruct (GenerateCSR D crt) as [e|csr]; [norm; reflexivity|].
  destruct (DecodePrivateKeyBytes D pk) as [e|signer]; [norm; reflexivity|].
  norm. destruct (EncodeCSR D csr signer (entropy σ)) as [[e|der] rest];
    norm; reflexivity.
Qed.

Lemma alter_twice {A} (f g : A -> A) (l : loc) (h : gmap loc A) :
  alter g l (alter f l h) = alter (fun x => g (f x)) l h.
Proof.
  apply map_eq. intros i. destruct (decide (l = i)) as [<-|Hne].
  - rewrite !lookup_alter_eq. destruct (h !! l); reflexivity.
  - rewrite !lookup_alter_ne by assumption. reflexivity.
Qed.

Lemma forEach_mapassign (l : loc) (kvs : list (string * string)) (σ : state) :
  forEach kvs (fun kv => mapassign l kv.1 kv.2) σ =
    (inr tt, {| heap := alter (fun m => foldl (fun m kv => write kv m) m kvs) l (heap σ);
                entropy := entropy σ; trace := trace σ |}).
Proof.
  revert σ. induction kvs as [|kv kvs IH]; intros σ.
  - cbn [forEach foldl]. unfold ret. f_equal. rewrite alter_id by reflexivity.
    symmetry. apply state_eta.
  - cbn [forEach foldl]. unfold bind at 1. unfold mapassign at 1.
    rewrite IH. cbn [heap entropy trace]. f_equal. f_equal.
    rewrite alter_twice. reflexivity.
Qed.

Lemma foldl_write (kvs : list (string * string)) :
  foldl (fun m kv => write kv m) ∅ kvs = list_to_map (reverse kvs).
Proof.
  induction kvs as [|kv kvs IH] using rev_ind; [reflexivity|].
  rewrite foldl_app, reverse_snoc. cbn [foldl]. rewrite IH. reflexivity.
Qed.

(** The copy loop gives the same map whatever the order in which the
    entries of the source map are visited. *)
Lemma foldl_write_entries (m : gmap string string) (kvs : list (string * string)) :
  kvs ≡ₚ map_to_list m -> foldl (fun m kv => write kv m) ∅ kvs = m.
Proof.
  intros Hperm. rewrite foldl_write.
  rewrite <- (list_to_map_to_list m). apply list_to_map_proper.
  - rewrite reverse_Permutation, Hperm. apply NoDup_fst_map_to_list.
  - rewrite reverse_Permutation. exact Hperm.
Qed.

(** The loop that copies the entries of [m] into an empty map at [l] ends
    with [m] at [l], in whatever order it visits the entries. *)
Lemma copy_any_order (l : loc) (m : gmap string string) (kvs : list (string * string))
    (σ : state) :
  kvs ≡ₚ map_to_list m ->
  heap σ !! l = Some ∅ ->
  forEach kvs (fun kv => mapassign l kv.1 kv.2) σ =
    (inr tt, {| heap := <[l := m]> (heap σ); entropy := entropy σ; trace := trace σ |}).
Proof.
  intros Hperm Hl. rewrite forEach_mapassign. do 2 f_equal.
  apply map_eq. intros i. destruct (decide (l = i)) as [<-|Hne].
  - rewrite lookup_alter_eq, lookup_insert_eq, Hl. cbn.
    rewrite (foldl_write_entries m kvs Hperm). reflexivity.
  - rewrite lookup_alter_ne, lookup_insert_ne by assumption. reflexivity.
Qed.

Lemma entries_alloc (h : gmap loc (gmap string string)) (m : mapref) (x : gmap string string) :
  entries (<[fresh (dom h) := x]> h) m =
    match m with
    | Some l => if decide (l = fresh (dom h)) then x else entries h m
    | None => ∅
    end.
Proof.
  destruct m as [l|]; [|reflexivity]. cbn [entries].
  rewrite lookup_insert. destruct (decide (fresh (dom h) = l)) as [<-|Hne].
  - rewrite decide_True by reflexivity. reflexivity.
  - rewrite decide_False by congruence. reflexivity.
Qed.

Lemma entries_dangling (h : gmap loc (gmap string string)) :
  entries h (Some (fresh (dom h))) = ∅.
Proof.
  cbn [entries]. rewrite (not_elem_of_dom_1 h (fresh (dom h))); [reflexivity|].
  apply is_fresh.
Qed.

Lemma buildCertificateRequest_eq (crt : Certificate.t) (name : string) (pk : bytes) (σ : state) :
  buildCertificateRequest D crt name pk σ =
    match generateCSR D crt pk σ with
    | (inl e, σ1) => (inl e, σ1)
    | (inr csrPEM, σ1) =>
        let l := fresh (dom (heap σ1)) in
        (inr (assembled crt csrPEM l),
         {| heap := <[l := injected D crt
                            (entries (heap σ1) (metav1.Annotations (Certificate.ObjectMeta crt)))]>
                      (heap σ1);
            entropy := entropy σ1;
            trace := trace σ1 ++ [Make l] |})
    end.
Proof.
  unfold buildCertificateRequest. unfold bind at 1.
  destruct (generateCSR D crt pk σ) as [[e|csrPEM] σ1]; [reflexivity|].
  unfold bind at 1. unfold make at 1. unfold bind at 1. unfold rangeMap.
  rewrite forEach_mapassign. cbn [heap entropy trace].
  unfold bind, mapassign, ret. cbn [heap entropy trace]. cbv zeta.
  f_equal. f_equal.
  rewrite !alter_twice, alter_insert_eq. f_equal.
  unfold injected. do 2 f_equal.
  set (l := fresh (dom (heap σ1))).
  assert (Hent : entries (<[l:=∅]> (heap σ1)) (metav1.Annotations (Certificate.ObjectMeta crt))
                 = entries (heap σ1) (metav1.Annotations (Certificate.ObjectMeta crt))).
  { subst l. rewrite entries_alloc.
    destruct (metav1.Annotations (Certificate.ObjectMeta crt)) as [l'|]; [|reflexivity].
    destruct (decide (l' = fresh (dom (heap σ1)))) as [->|]; [|reflexivity].
    symmetry. apply entries_dangling. }
  rewrite Hent. apply foldl_write_entries. reflexivity.
Qed.

End equations.

Section loop.
Context (D : Deps).

Lemma runInfo_eq (cmdNamespace : string) (info : Info) (crt : Certificate.t) (σ : state) :
  ConvertToVersion D (InfoObject info) = inr (CertificateObject crt) ->
  runInfo D cmdNamespace info σ =
    match ComputeCertificateRequestName D crt with
    | inl e =>
        (inl ("internal error hashing certificate spec: " +:+ e),
         failed σ (entropy σ) prelude ComputeCertificateRequestName_)
    | inr name =>
        match GeneratePrivateKeyForCertificate D crt (entropy σ) with
        | (inl e, rest) =>
            (inl "error when generating private key",
             failed σ rest (prelude ++ [ComputeCertificateRequestName_])
               GeneratePrivateKeyForCertificate_)
        | (inr signer, rest) =>
            match EncodePrivateKey D signer
                    (CertificateSpec.KeyEncoding (Certificate.Spec crt)) with
            | inl e =>
                (inl "error when encoding private key",
                 failed σ rest
                   (prelude ++ [ComputeCertificateRequestName_;
                                GeneratePrivateKeyForCertificate_])
                   EncodePrivateKey_)
            | inr keyData =>
                match buildCertificateRequest D crt name keyData
                        (stepped σ rest
                           (prelude ++ [ComputeCertificateRequestName_;
                                        GeneratePrivateKeyForCertificate_; EncodePrivateKey_]))
                with
                | (inl e, σ1) => (inl e, σ1)
                | (inr req, σ1) =>
                    match Create D (namespaceFor cmdNamespace crt) req (heap σ1) with
                    | inl e =>
                        (inl ("error when creating CertifcateRequest through client: " +:+ e),
                         logged σ1 [Call Create_; Failure Create_])
                    | inr _ =>
                        (inr tt,
                         logged σ1 [Call Create_; Created (namespaceFor cmdNamespace crt) req])
                    end
                end
            end
        end
    end.
Proof.
  intros Hconv. unfold runInfo. unfold bind at 1. unfold call at 1.
  unfold bind at 1. unfold log at 1. unfold bind at 1. unfold ret at 1.
  rewrite Hconv. unfold ret at 1. unfold bind at 1. unfold ret at 1.
  unfold bind at 1. unfold log at 1. unfold bind at 1. unfold call at 1.
  unfold bind at 1. unfold log at 1. unfold bind at 1. unfold ret at 1.
  destruct (ComputeCertificateRequestName D crt) as [e|name];
    [unfold bind, log, throw, failed, prelude; norm; reflexivity|].
  unfold ret at 1. unfold bind at 1. unfold call at 1.
  unfold bind at 1. unfold log at 1. unfold bind at 1. unfold random at 1. norm.
  destruct (GeneratePrivateKeyForCertificate D crt (entropy σ)) as [[e|signer] rest];
    [unfold bind, log, throw, failed, prelude; norm; reflexivity|].
  unfold ret at 1. unfold bind at 1. unfold call at 1.
  unfold bind at 1. unfold log at 1. unfold bind at 1. unfold ret at 1. norm.
  destruct (EncodePrivateKey D signer (CertificateSpec.KeyEncoding (Certificate.Spec crt)))
    as [e|keyData];
    [unfold bind, log, throw, failed, prelude; norm; reflexivity|].
  unfold ret at 1. unfold bind at 1. unfold stepped at 1. unfold prelude. norm.
  destruct (buildCertificateRequest D crt name keyData _) as [[e|req] σ1]; [reflexivity|].
  unfold call, bind, log, gets, ret, throw, logged, namespaceFor. norm.
  destruct (Create D _ req (heap σ1)) as [e|obj]; norm; reflexivity.
Qed.

Lemma forEach_single {A} (x : A) (body : A -> M unit) (σ : state) :
  forEach [x] body σ = body x σ.
Proof.
  cbn [forEach]. unfold bind, ret. destruct (body x σ) as [[e|[]] σ']; reflexivity.
Qed.

Lemma Run_resolved (f : Factory) (cmdNamespace : string) (crt : Certificate.t) (σ : state) :
  resolves D f cmdNamespace crt ->
  exists info,
    ConvertToVersion D (InfoObject info) = inr (CertificateObject crt)
    /\ Run D f σ = runInfo D cmdNamespace info σ.
Proof.
  intros (enforce & info & Hns & Herr & Hinfos & Hconv). exists info. split; [exact Hconv|].
  unfold Run. unfold bind at 1. rewrite Hns. unfold orReturn at 1, ret at 1.
  rewrite Herr. unfold bind at 1. rewrite Hinfos. unfold orReturn at 1, ret at 1.
  cbn [length Nat.eqb Nat.ltb Nat.leb]. apply forEach_single.
Qed.

End loop.

Lemma stepped_stepped (σ : state) (r r' : bytes) (cs cs' : list callee) :
  stepped (stepped σ r cs) r' cs' = stepped σ r' (cs ++ cs').
Proof. unfold stepped. cbn [heap entropy trace]. rewrite map_app, app_assoc. reflexivity. Qed.

Lemma failed_stepped (σ : state) (r r' : bytes) (cs cs' : list callee) (c : callee) :
  failed (stepped σ r cs) r' cs' c = failed σ r' (cs ++ cs') c.
Proof.
  unfold failed, stepped. cbn [heap entropy trace]. rewrite map_app, <- !app_assoc. reflexivity.
Qed.

Section run.
Context (D : Deps).

(** The run of the loop body on a certificate, down to the outcome of each
    library call. *)
Lemma Run_eq (f : Factory) (cmdNamespace : string) (crt : Certificate.t) (σ : state) :
  resolves D f cmdNamespace crt ->
  Run D f σ =
    match ComputeCertificateRequestName D crt with
    | inl e =>
        (inl ("internal error hashing certificate spec: " +:+ e),
         failed σ (entropy σ) (firstn 2 pipeline) ComputeCertificateRequestName_)
    | inr name =>
        match GeneratePrivateKeyForCertificate D crt (entropy σ) with
        | (inl e, rest) =>
            (inl "error when generating private key",
             failed σ rest (firstn 3 pipeline) GeneratePrivateKeyForCertificate_)
        | (inr signer, rest) =>
            match EncodePrivateKey D signer
                    (CertificateSpec.KeyEncoding (Certificate.Spec crt)) with
            | inl e =>
                (inl "error when encoding private key",
                 failed σ rest (firstn 4 pipeline) EncodePrivateKey_)
            | inr keyData =>
                match GenerateCSR D crt with
                | inl e => (inl e, failed σ rest (firstn 5 pipeline) GenerateCSR_)
                | inr csr =>
                    match DecodePrivateKeyBytes D keyData with
                    | inl e =>
                        (inl e, failed σ rest (firstn 6 pipeline) DecodePrivateKeyBytes_)
                    | inr signer' =>
                        match EncodeCSR D csr signer' rest with
                        | (inl e, rest') =>
                            (inl e, failed σ rest' (firstn 7 pipeline) EncodeCSR_)
                        | (inr der, rest') =>
                            let l := fresh (dom (heap σ)) in
                            let req := assembled crt (pem.EncodeToMemory (csrBlock der)) l in
                            let ns := namespaceFor cmdNamespace crt in
                            let σ1 :=
                              {| heap :=
                                   <[l := injected D crt
                                            (entries (heap σ)
                                               (metav1.Annotations (Certificate.ObjectMeta crt)))]>
                                     (heap σ);
                                 entropy := rest';
                                 trace := trace σ ++ map Call pipeline ++ [Make l] |} in
                            match Create D ns req (heap σ1) with
                            | inl e =>
                                (inl ("error when creating CertifcateRequest through client: "
                                        +:+ e),
                                 logged σ1 [Call Create_; Failure Create_])
                            | inr _ => (inr tt, logged σ1 [Call Create_; Created ns req])
                            end
                        end
                    end
                end
            end
        end
    end.
Proof.
  intros Hres. destruct (Run_resolved D f cmdNamespace crt σ Hres) as (info & Hconv & ->).
  rewrite (runInfo_eq D cmdNamespace info crt σ Hconv).
  destruct (ComputeCertificateRequestName D crt) as [e|name]; [reflexivity|].
  destruct (GeneratePrivateKeyForCertificate D crt (entropy σ)) as [[e|signer] rest];
    [reflexivity|].
  destruct (EncodePrivateKey D signer _) as [e|keyData]; [reflexivity|].
  rewrite buildCertificateRequest_eq, generateCSR_eq.
  destruct (GenerateCSR D crt) as [e|csr]; [rewrite failed_stepped; reflexivity|].
  destruct (DecodePrivateKeyBytes D keyData) as [e|signer'];
    [rewrite failed_stepped; reflexivity|].
  cbn [stepped entropy].
  destruct (EncodeCSR D csr signer' rest) as [[e|der] rest'];
    [rewrite failed_stepped; reflexivity|].
  rewrite stepped_stepped. cbv zeta. cbn [stepped heap entropy trace].
  rewrite <- !app_assoc. reflexivity.
Qed.

End run.

(** ** Facts about the reference implementation *)

Lemma SpecModel_decode_encode (k : SpecModel.PrivateKey) (e : string) (pk : bytes) :
  SpecModel.encode k e = inr pk -> SpecModel.decode pk = inr k.
Proof.
  unfold SpecModel.encode, SpecModel.decode. destruct k as [a m]. cbn [SpecModel.alg SpecModel.material].
  destruct (String.eqb e "pkcs1").
  - intros [= <-]. destruct a; rewrite Decode_EncodeToMemory by reflexivity; reflexivity.
  - destruct (String.eqb e "pkcs8"); [|discriminate].
    intros [= <-]. rewrite Decode_EncodeToMemory by reflexivity.
    destruct a; reflexivity.
Qed.


(** ** The record that the assembler returns *)

(** C2. When CSR generation succeeds, [buildCertificateRequest] returns a
    record whose generate-name seed is the certificate's name followed by
    "-", whose annotations are the certificate's annotations with the two
    injected keys set to the secret name and to the certificate's name,
    whose labels are the certificate's labels, and whose spec holds the
    CSR PEM and the duration, issuer reference, CA flag and usages of the
    certificate. *)
Theorem buildCertificateRequest_record (D : Deps) (crt : Certificate.t) (name : string)
    (pk : bytes) (σ : state) (csrPEM : bytes) (σ1 : state) :
  generateCSR D crt pk σ = (inr csrPEM, σ1) ->
  allocated (heap σ) (metav1.Labels (Certificate.ObjectMeta crt)) ->
  exists cr σ',
    buildCertificateRequest D crt name pk σ = (inr cr, σ')
    /\ metav1.GenerateName (CertificateRequest.ObjectMeta cr)
       = metav1.Name (Certificate.ObjectMeta crt) +:+ "-"
    /\ entries (heap σ') (metav1.Annotations (CertificateRequest.ObjectMeta cr))
       = <[CertificateNameKey D := metav1.Name (Certificate.ObjectMeta crt)]>
           (<[CRPrivateKeyAnnotationKey D :=
                CertificateSpec.SecretName (Certificate.Spec crt)]>
              (entries (heap σ) (metav1.Annotations (Certificate.ObjectMeta crt))))
    /\ metav1.Labels (CertificateRequest.ObjectMeta cr)
       = metav1.Labels (Certificate.ObjectMeta crt)
    /\ entries (heap σ') (metav1.Labels (CertificateRequest.ObjectMeta cr))
       = entries (heap σ) (metav1.Labels (Certificate.ObjectMeta crt))
    /\ CertificateRequest.Spec cr
       = {| CertificateRequestSpec.CSRPEM := csrPEM;
            CertificateRequestSpec.Duration :=
              CertificateSpec.Duration (Certificate.Spec crt);
            CertificateRequestSpec.IssuerRef :=
              CertificateSpec.IssuerRef (Certificate.Spec crt);
            CertificateRequestSpec.IsCA := CertificateSpec.IsCA (Certificate.Spec crt);
            CertificateRequestSpec.Usages := CertificateSpec.Usages (Certificate.Spec crt) |}.
Proof.
  intros Hcsr Hlab. rewrite buildCertificateRequest_eq, Hcsr. cbv zeta.
  assert (Hheap : heap σ1 = heap σ).
  { rewrite generateCSR_eq in Hcsr.
    destruct (GenerateCSR D crt); [discriminate|].
    destruct (DecodePrivateKeyBytes D pk); [discriminate|].
    destruct (EncodeCSR D _ _ (entropy σ)) as [[?|?] ?]; [discriminate|].
    injection Hcsr as _ <-. reflexivity. }
  rewrite Hheap. eexists _, _. split; [reflexivity|].
  cbn [assembled CertificateRequest.ObjectMeta CertificateRequest.Spec metav1.GenerateName
       metav1.Annotations metav1.Labels heap].
  repeat split.
  - cbn [entries]. rewrite lookup_insert_eq. reflexivity.
  - rewrite entries_alloc.
    destruct (metav1.Labels (Certificate.ObjectMeta crt)) as [l|]; [|reflexivity].
    destruct (decide (l = fresh (dom (heap σ)))) as [->|]; [|reflexivity].
    exfalso. cbn [allocated] in Hlab. apply elem_of_dom in Hlab.
    exact (is_fresh _ Hlab).
Qed.

(** C1 (as amended). The assembler takes the computed request name but the
    record does not depend on it: whatever name is passed, the result is
    the same, the record's name is empty and its generate-name seed is the
    certificate's name followed by "-". *)
Theorem assembler_ignores_computed_name (D : Deps) (crt : Certificate.t) (pk : bytes)
    (σ : state) :
  (forall n1 n2 : string,
     buildCertificateRequest D crt n1 pk σ = buildCertificateRequest D crt n2 pk σ)
  /\ (forall (name : string) (cr : CertificateRequest.t) (σ' : state),
        buildCertificateRequest D crt name pk σ = (inr cr, σ') ->
        metav1.Name (CertificateRequest.ObjectMeta cr) = ""
        /\ metav1.GenerateName (CertificateRequest.ObjectMeta cr)
           = metav1.Name (Certificate.ObjectMeta crt) +:+ "-").
Proof.
  split.
  - intros n1 n2. rewrite !buildCertificateRequest_eq. reflexivity.
  - intros name cr σ'. rewrite buildCertificateRequest_eq.
    destruct (generateCSR D crt pk σ) as [[e|csrPEM] σ1]; [discriminate|].
    intros [= <- _]. split; reflexivity.
Qed.

(** C10. [buildCertificateRequest] leaves every map that existed before
    the call as it was, in particular the annotations and the labels of
    the certificate: the injected keys go to a map allocated by the call,
    which starts as a copy of the certificate's annotations.  The fields of
    the certificate itself are only read. *)
Theorem buildCertificateRequest_frame (D : Deps) (crt : Certificate.t) (name : string)
    (pk : bytes) (σ : state) (r : error + CertificateRequest.t) (σ' : state) :
  buildCertificateRequest D crt name pk σ = (r, σ') ->
  allocated (heap σ) (metav1.Annotations (Certificate.ObjectMeta crt)) ->
  allocated (heap σ) (metav1.Labels (Certificate.ObjectMeta crt)) ->
  (forall (l : loc) (m : gmap string string),
     heap σ !! l = Some m -> heap σ' !! l = Some m)
  /\ entries (heap σ') (metav1.Annotations (Certificate.ObjectMeta crt))
     = entries (heap σ) (metav1.Annotations (Certificate.ObjectMeta crt))
  /\ entries (heap σ') (metav1.Labels (Certificate.ObjectMeta crt))
     = entries (heap σ) (metav1.Labels (Certificate.ObjectMeta crt))
  /\ (forall cr : CertificateRequest.t,
        r = inr cr ->
        exists l : loc,
          metav1.Annotations (CertificateRequest.ObjectMeta cr) = Some l
          /\ heap σ !! l = None
          /\ metav1.Annotations (Certificate.ObjectMeta crt) <> Some l
          /\ heap σ' !! l
             = Some (<[CertificateNameKey D := metav1.Name (Certificate.ObjectMeta crt)]>
                       (<[CRPrivateKeyAnnotationKey D :=
                            CertificateSpec.SecretName (Certificate.Spec crt)]>
                          (entries (heap σ)
                             (metav1.Annotations (Certificate.ObjectMeta crt)))))).
Proof.
  intros Hrun Hann Hlab.
  assert (Hframe : forall (l : loc) (m : gmap string string),
             heap σ !! l = Some m -> heap σ' !! l = Some m).
  { intros l m Hl. rewrite buildCertificateRequest_eq, generateCSR_eq in Hrun.
    destruct (GenerateCSR D crt); [injection Hrun as _ <-; exact Hl|].
    destruct (DecodePrivateKeyBytes D pk); [injection Hrun as _ <-; exact Hl|].
    destruct (EncodeCSR D _ _ (entropy σ)) as [[?|?] ?]; injection Hrun as _ <-;
      [exact Hl|].
    cbn [heap stepped]. rewrite lookup_insert_ne; [exact Hl|].
    intros Heq. apply (is_fresh (dom (heap σ))). rewrite Heq.
    apply elem_of_dom. eexists; exact Hl. }
  assert (Hentries : forall m, allocated (heap σ) m -> entries (heap σ') m = entries (heap σ) m).
  { intros [l|] Hm; [|reflexivity]. cbn [allocated] in Hm. destruct Hm as [x Hx].
    cbn [entries]. rewrite (Hframe l x Hx), Hx. reflexivity. }
  split; [exact Hframe|]. split; [exact (Hentries _ Hann)|]. split; [exact (Hentries _ Hlab)|].
  intros cr ->. rewrite buildCertificateRequest_eq, generateCSR_eq in Hrun.
  destruct (GenerateCSR D crt); [discriminate|].
  destruct (DecodePrivateKeyBytes D pk); [discriminate|].
  destruct (EncodeCSR D _ _ (entropy σ)) as [[?|?] ?]; [discriminate|].
  injection Hrun as <- <-. cbn [heap stepped]. exists (fresh (dom (heap σ))).
  assert (Hnone : heap σ !! fresh (dom (heap σ)) = None)
    by (apply not_elem_of_dom, is_fresh).
  repeat split.
  - exact Hnone.
  - intros Heq. rewrite Heq in Hann. cbn [allocated] in Hann.
    rewrite Hnone in Hann. destruct Hann as [? [=]].
  - rewrite lookup_insert_eq. reflexivity.
Qed.

(** C9. [Run] takes exactly one object: with no object it returns the
    error "no object passed", with more than one the error "multiple
    objects passed", and in both cases the state is untouched (no call is
    made, no key is generated, nothing is created); with one object it
    runs the loop body on it. *)
Theorem Run_exactly_one_object (D : Deps) (f : Factory) (σ : state)
    (ns : string * bool) (infos : list Info) :
  ToNamespace f = inr ns ->
  BuilderErr f = None ->
  ToInfos f = inr infos ->
  (infos = [] ->
   Run D f σ = (inl "no object passed to create certificaterequest", σ))
  /\ ((1 < length infos)%nat ->
      Run D f σ = (inl "multiple objects passed to create certificaterequest", σ))
  /\ (forall info, infos = [info] -> Run D f σ = runInfo D ns.1 info σ).
Proof.
  intros Hns Herr Hinfos. unfold Run. unfold bind at 1. rewrite Hns.
  unfold orReturn at 1, ret at 1. destruct ns as [cmdNamespace enforceNamespace].
  rewrite Herr. unfold bind at 1. rewrite Hinfos. unfold orReturn at 1, ret at 1.
  repeat split.
  - intros ->. reflexivity.
  - intros Hlen. destruct infos as [|a [|b infos]]; cbn [length] in Hlen; try lia.
    reflexivity.
  - intros info ->. cbn [length Nat.eqb Nat.ltb Nat.leb fst]. apply forEach_single.
Qed.

(** C3 (as amended). When a step of the pipeline fails, the invocation
    ends there with an error: the trace ends with the call that failed (no
    later step is entered), the heap is as before (no record was
    assembled) and nothing was created.  What the earlier steps returned
    is dropped, the random source having been read by them.  The error of
    the CSR build, of the key decoder and of the signer is returned as it
    is, the error of the namer behind a prefix; for key generation and key
    encoding the source returns a message of its own.  In particular a key
    generator that rejects the certificate's key choice ends the
    invocation before any key is encoded, any CSR is built or any record
    is assembled. *)
Theorem Run_first_error (D : Deps) (f : Factory) (cmdNamespace : string)
    (crt : Certificate.t) (σ : state) :
  resolves D f cmdNamespace crt ->
  (forall e,
     ComputeCertificateRequestName D crt = inl e ->
     Run D f σ = (inl ("internal error hashing certificate spec: " +:+ e),
                  failed σ (entropy σ) [ConvertToVersion_; Printf_]
                    ComputeCertificateRequestName_))
  /\ (forall name,
      ComputeCertificateRequestName D crt = inr name ->
      (forall e rest,
         GeneratePrivateKeyForCertificate D crt (entropy σ) = (inl e, rest) ->
         Run D f σ = (inl "error when generating private key",
                      failed σ rest
                        [ConvertToVersion_; Printf_; ComputeCertificateRequestName_]
                        GeneratePrivateKeyForCertificate_))
      /\ (forall signer rest,
          GeneratePrivateKeyForCertificate D crt (entropy σ) = (inr signer, rest) ->
          (forall e,
             EncodePrivateKey D signer
               (CertificateSpec.KeyEncoding (Certificate.Spec crt)) = inl e ->
             Run D f σ = (inl "error when encoding private key",
                          failed σ rest
                            [ConvertToVersion_; Printf_; ComputeCertificateRequestName_;
                             GeneratePrivateKeyForCertificate_]
                            EncodePrivateKey_))
          /\ (forall keyData,
              EncodePrivateKey D signer
                (CertificateSpec.KeyEncoding (Certificate.Spec crt)) = inr keyData ->
              (forall e,
                 GenerateCSR D crt = inl e ->
                 Run D f σ = (inl e,
                              failed σ rest
                                [ConvertToVersion_; Printf_; ComputeCertificateRequestName_;
                                 GeneratePrivateKeyForCertificate_; EncodePrivateKey_]
                                GenerateCSR_))
              /\ (forall csr,
                  GenerateCSR D crt = inr csr ->
                  (forall e,
                     DecodePrivateKeyBytes D keyData = inl e ->
                     Run D f σ = (inl e,
                                  failed σ rest
                                    [ConvertToVersion_; Printf_;
                                     ComputeCertificateRequestName_;
                                     GeneratePrivateKeyForCertificate_; EncodePrivateKey_;
                                     GenerateCSR_]
                                    DecodePrivateKeyBytes_))
                  /\ (forall signer' e rest',
                      DecodePrivateKeyBytes D keyData = inr signer' ->
                      EncodeCSR D csr signer' rest = (inl e, rest') ->
                      Run D f σ = (inl e,
                                   failed σ rest'
                                     [ConvertToVersion_; Printf_;
                                      ComputeCertificateRequestName_;
                                      GeneratePrivateKeyForCertificate_; EncodePrivateKey_;
                                      GenerateCSR_; DecodePrivateKeyBytes_]
                                     EncodeCSR_)))))).
Proof.
  intros Hres. pose proof (Run_eq D f cmdNamespace crt σ Hres) as Heq.
  split; [intros e He; rewrite Heq, He; reflexivity|].
  intros name Hname. rewrite Hname in Heq.
  split; [intros e rest He; rewrite Heq, He; reflexivity|].
  intros signer rest Hgen. rewrite Hgen in Heq.
  split; [intros e He; rewrite Heq, He; reflexivity|].
  intros keyData Henc. rewrite Henc in Heq.
  split; [intros e He; rewrite Heq, He; reflexivity|].
  intros csr Hcsr. rewrite Hcsr in Heq.
  split; [intros e He; rewrite Heq, He; reflexivity|].
  intros signer' e rest' Hdec Hsign. rewrite Heq, Hdec, Hsign. reflexivity.
Qed.


(** C4. The text that [generateCSR] returns is the DER of the signed CSR
    in the PEM envelope labelled "CERTIFICATE REQUEST": the BEGIN line, the
    base64 text in lines of 64 characters, the END line; decoding the
    envelope gives back the label and the DER bytes. *)
Theorem generateCSR_pem_envelope (D : Deps) (crt : Certificate.t) (pk : bytes)
    (σ : state) (out : bytes) (σ' : state) :
  generateCSR D crt pk σ = (inr out, σ') ->
  exists csr signer der rest,
    GenerateCSR D crt = inr csr
    /\ DecodePrivateKeyBytes D pk = inr signer
    /\ EncodeCSR D csr signer (entropy σ) = (inr der, rest)
    /\ out = "-----BEGIN CERTIFICATE REQUEST-----"
               +:+ String nl (pem.lineBreaker 0 (base64.EncodeToString der)
                                +:+ "-----END CERTIFICATE REQUEST-----"
                                +:+ String nl EmptyString)
    /\ pem.Decode out
       = Some {| pem.Type_ := "CERTIFICATE REQUEST"; pem.Bytes := der |}.
Proof.
  rewrite generateCSR_eq.
  destruct (GenerateCSR D crt) as [e|csr]; [discriminate|].
  destruct (DecodePrivateKeyBytes D pk) as [e|signer]; [discriminate|].
  destruct (EncodeCSR D csr signer (entropy σ)) as [[e|der] rest] eqn:Hsign; [discriminate|].
  intros [= <- _]. exists csr, signer, der, rest.
  split; [reflexivity|]. split; [reflexivity|]. split; [exact Hsign|].
  split; [reflexivity|]. apply Decode_EncodeToMemory. reflexivity.
Qed.


(** C5. The key codec round-trips: decoding the encoding of a key gives
    the key back, for each supported encoding.  With a codec that
    round-trips, [generateCSR] signs with the key whose encoding it is
    given; so in an invocation the key decoded in [generateCSR] is the
    generated key, and the request that is created carries the CSR signed
    with the generated key. *)
Theorem key_codec_round_trip :
  (forall k e pk, SpecModel.encode k e = inr pk -> SpecModel.decode pk = inr k)
  /\ (forall (D : Deps),
        (forall k e pk, EncodePrivateKey D k e = inr pk -> DecodePrivateKeyBytes D pk = inr k) ->
        forall crt σ k e pk csr,
          EncodePrivateKey D k e = inr pk ->
          GenerateCSR D crt = inr csr ->
          generateCSR D crt pk σ =
            match EncodeCSR D csr k (entropy σ) with
            | (inl err, rest) =>
                (inl err, failed σ rest [GenerateCSR_; DecodePrivateKeyBytes_] EncodeCSR_)
            | (inr der, rest) =>
                (inr (pem.EncodeToMemory (csrBlock der)),
                 stepped σ rest
                   [GenerateCSR_; DecodePrivateKeyBytes_; EncodeCSR_; EncodeToMemory_])
            end)
  /\ (forall f cmdNamespace crt σ k rest pk csr der rest',
        resolves SpecModel.deps f cmdNamespace crt ->
        SpecModel.generate crt (entropy σ) = (inr k, rest) ->
        SpecModel.encode k (CertificateSpec.KeyEncoding (Certificate.Spec crt)) = inr pk ->
        SpecModel.build crt = inr csr ->
        SpecModel.sign csr k rest = (inr der, rest') ->
        SpecModel.decode pk = inr k
        /\ exists σ' req,
             Run SpecModel.deps f σ = (inr tt, σ')
             /\ last (trace σ') = Some (Created (namespaceFor cmdNamespace crt) req)
             /\ CertificateRequestSpec.CSRPEM (CertificateRequest.Spec req)
                = pem.EncodeToMemory (csrBlock der)).
Proof.
  split; [exact SpecModel_decode_encode|]. split.
  { intros D Hlaw crt σ k e pk csr Henc Hcsr.
    rewrite generateCSR_eq, Hcsr, (Hlaw _ _ _ Henc). reflexivity. }
  intros f cmdNamespace crt σ k rest pk csr der rest' Hres Hgen Henc Hcsr Hsign.
  pose proof (SpecModel_decode_encode _ _ _ Henc) as Hdec.
  split; [exact Hdec|].
  rewrite (Run_eq SpecModel.deps f cmdNamespace crt σ Hres).
  cbn [SpecModel.deps ComputeCertificateRequestName GeneratePrivateKeyForCertificate
       EncodePrivateKey GenerateCSR DecodePrivateKeyBytes EncodeCSR Create].
  unfold SpecModel.computeName. rewrite Hgen, Henc, Hcsr, Hdec, Hsign. cbv zeta.
  eexists _, _. split; [reflexivity|]. split.
  - cbn [logged trace].
    change [Call Create_; ?x] with ([Call Create_] ++ [x]).
    rewrite !app_assoc. apply last_snoc.
  - reflexivity.
Qed.

(** ** The scenario *)

(** The factory of the scenario resolves to its one certificate. *)
Lemma web_resolves (crt : Certificate.t) :
  resolves SpecModel.deps (SpecModel.factory [crt]) "default" crt.
Proof. exists false, {| InfoObject := CertificateObject crt |}. repeat split. Defined.

(** The scenario of the specification runs to the end. *)
Example web_runs :
  fst (Run SpecModel.deps (SpecModel.factory [SpecModel.web]) SpecModel.start) = inr tt.
Proof. vm_compute. reflexivity. Qed.

(** Against C1 as stated: in the scenario the namer computes
    "web-364324867", and the assembler returns for it the record it returns
    for any other name, with an empty name and the seed "web-"; so no
    function reads the request name off the record. *)
Lemma record_carries_no_request_name :
  ComputeCertificateRequestName SpecModel.deps SpecModel.web = inr "web-364324867"
  /\ (exists cr σ',
        buildCertificateRequest SpecModel.deps SpecModel.web "web-364324867"
          SpecModel.webKeyData SpecModel.start = (inr cr, σ')
        /\ buildCertificateRequest SpecModel.deps SpecModel.web "another-name"
             SpecModel.webKeyData SpecModel.start = (inr cr, σ')
        /\ metav1.Name (CertificateRequest.ObjectMeta cr) = ""
        /\ metav1.GenerateName (CertificateRequest.ObjectMeta cr) = "web-")
  /\ ~ (exists proj : CertificateRequest.t -> string,
          forall name cr σ',
            buildCertificateRequest SpecModel.deps SpecModel.web name
              SpecModel.webKeyData SpecModel.start = (inr cr, σ') ->
            proj cr = name).
Proof.
  split; [vm_compute; reflexivity|].
  destruct (buildCertificateRequest SpecModel.deps SpecModel.web "web-364324867"
              SpecModel.webKeyData SpecModel.start) as [[e|cr] σ'] eqn:Hrun;
    [vm_compute in Hrun; discriminate Hrun|].
  assert (Hother : buildCertificateRequest SpecModel.deps SpecModel.web "another-name"
                     SpecModel.webKeyData SpecModel.start = (inr cr, σ')).
  { rewrite buildCertificateRequest_eq.
    rewrite buildCertificateRequest_eq in Hrun. exact Hrun. }
  split.
  - exists cr, σ'. split; [reflexivity|]. split; [exact Hother|].
    rewrite buildCertificateRequest_eq in Hrun.
    destruct (generateCSR _ _ _ _) as [[e|csrPEM] σ1]; [discriminate Hrun|].
    injection Hrun as <- _. split; reflexivity.
  - intros [proj Hproj].
    pose proof (Hproj _ _ _ Hrun) as H1. pose proof (Hproj _ _ _ Hother) as H2.
    rewrite H1 in H2. discriminate H2.
Qed.

(** Against C3 as stated.  The key generator fails with
    "UnsupportedAlgorithm" for a key size of 0 and with "GenerationFailure"
    when the random source has run dry, and the invocation returns one
    message for both: it does not end with the error of the step, and that
    error cannot be read off what it returns.  And with a key encoding that
    the codec does not know, the invocation fails after the key generator
    has returned a key and read the random source. *)
Lemma step_error_not_surfaced :
  SpecModel.generate SpecModel.unsupported (entropy SpecModel.start)
  = (inl "UnsupportedAlgorithm", entropy SpecModel.start)
  /\ SpecModel.generate SpecModel.web (entropy SpecModel.exhausted)
     = (inl "GenerationFailure", entropy SpecModel.exhausted)
  /\ fst (Run SpecModel.deps (SpecModel.factory [SpecModel.unsupported]) SpecModel.start)
     = inl "error when generating private key"
  /\ fst (Run SpecModel.deps (SpecModel.factory [SpecModel.web]) SpecModel.exhausted)
     = inl "error when generating private key"
  /\ SpecModel.generate SpecModel.unencodable (entropy SpecModel.start)
     = (inr SpecModel.webKey, "14l-k3yM4t3r14l-n0nc3")
  /\ SpecModel.encode SpecModel.webKey "der" = inl "UnsupportedEncoding"
  /\ (exists σ',
        Run SpecModel.deps (SpecModel.factory [SpecModel.unencodable]) SpecModel.start
        = (inl "error when encoding private key", σ')
        /\ entropy σ' = "14l-k3yM4t3r14l-n0nc3")
  /\ ~ (forall (D : Deps) f cmdNamespace crt σ name e rest,
          resolves D f cmdNamespace crt ->
          ComputeCertificateRequestName D crt = inr name ->
          GeneratePrivateKeyForCertificate D crt (entropy σ) = (inl e, rest) ->
          fst (Run D f σ) = inl e)
  /\ ~ (exists proj : error -> error,
          forall f crt σ e rest,
            resolves SpecModel.deps f "default" crt ->
            SpecModel.generate crt (entropy σ) = (inl e, rest) ->
            exists msg, fst (Run SpecModel.deps f σ) = inl msg /\ proj msg = e)
  /\ ~ (forall (D : Deps) f cmdNamespace crt σ e σ',
          resolves D f cmdNamespace crt ->
          Run D f σ = (inl e, σ') ->
          entropy σ' = entropy σ
          /\ forall k rest,
               GeneratePrivateKeyForCertificate D crt (entropy σ) <> (inr k, rest)).
Proof.
  assert (Hres : forall crt,
             resolves SpecModel.deps (SpecModel.factory [crt]) "default" crt).
  { intros crt. exists false, {| InfoObject := CertificateObject crt |}. repeat split. }
  assert (Hsize : SpecModel.generate SpecModel.unsupported (entropy SpecModel.start)
                  = (inl "UnsupportedAlgorithm", entropy SpecModel.start))
    by (vm_compute; reflexivity).
  assert (Hdry : SpecModel.generate SpecModel.web (entropy SpecModel.exhausted)
                 = (inl "GenerationFailure", entropy SpecModel.exhausted))
    by (vm_compute; reflexivity).
  assert (Hrun1 : fst (Run SpecModel.deps (SpecModel.factory [SpecModel.unsupported])
                         SpecModel.start)
                  = inl "error when generating private key")
    by (vm_compute; reflexivity).
  assert (Hrun2 : fst (Run SpecModel.deps (SpecModel.factory [SpecModel.web])
                         SpecModel.exhausted)
                  = inl "error when generating private key")
    by (vm_compute; reflexivity).
  assert (Hkey : SpecModel.generate SpecModel.unencodable (entropy SpecModel.start)
                 = (inr SpecModel.webKey, "14l-k3yM4t3r14l-n0nc3"))
    by (vm_compute; reflexivity).
  assert (Hrun3 : exists σ',
             Run SpecModel.deps (SpecModel.factory [SpecModel.unencodable]) SpecModel.start
             = (inl "error when encoding private key", σ')
             /\ entropy σ' = "14l-k3yM4t3r14l-n0nc3")
    by (eexists; split; vm_compute; reflexivity).
  split; [exact Hsize|]. split; [exact Hdry|]. split; [exact Hrun1|].
  split; [exact Hrun2|]. split; [exact Hkey|]. split; [vm_compute; reflexivity|].
  split; [exact Hrun3|]. split; [|split].
  - intros H.
    pose proof (H SpecModel.deps _ "default" _ SpecModel.start _ _ _
                  (Hres SpecModel.unsupported) eq_refl Hsize) as Hbad.
    rewrite Hrun1 in Hbad. discriminate Hbad.
  - intros [proj H].
    destruct (H _ _ SpecModel.start _ _ (Hres SpecModel.unsupported) Hsize)
      as (m1 & Hm1 & Hp1).
    destruct (H _ _ SpecModel.exhausted _ _ (Hres SpecModel.web) Hdry)
      as (m2 & Hm2 & Hp2).
    rewrite Hrun1 in Hm1. rewrite Hrun2 in Hm2.
    injection Hm1 as <-. injection Hm2 as <-.
    rewrite Hp1 in Hp2. discriminate Hp2.
  - intros H. destruct Hrun3 as (σ' & Hrun & _).
    destruct (H SpecModel.deps _ "default" _ SpecModel.start _ _
                (Hres SpecModel.unencodable) Hrun) as [_ Hnone].
    exact (Hnone _ _ Hkey).
Qed.

(** CSR generation succeeds in the scenario. *)
Lemma webCSR_ok : webCSR = (inr webPEM, snd webCSR).
Proof. vm_compute. reflexivity. Defined.

(** The maps of the scenario's certificate are on the heap. *)
Lemma web_labels_allocated :
  allocated (heap SpecModel.start) (metav1.Labels (Certificate.ObjectMeta SpecModel.web)).
Proof. eexists. vm_compute. reflexivity. Defined.

Lemma web_annotations_allocated :
  allocated (heap SpecModel.start)
    (metav1.Annotations (Certificate.ObjectMeta SpecModel.web)).
Proof. eexists. vm_compute. reflexivity. Defined.

(** The record of the scenario: seed "web-" and the three annotations. *)
Lemma buildCertificateRequest_record_web :
  exists cr σ',
    buildCertificateRequest SpecModel.deps SpecModel.web "web-364324867"
      SpecModel.webKeyData SpecModel.start = (inr cr, σ')
    /\ metav1.GenerateName (CertificateRequest.ObjectMeta cr) = "web-"
    /\ entries (heap σ') (metav1.Annotations (CertificateRequest.ObjectMeta cr))
       = <[ "cert-manager.io/certificate-name" := "web" ]>
           (<[ "cert-manager.io/private-key-secret-name" := "web-tls" ]>
              {[ "team" := "edge" ]}).
Proof.
  destruct (buildCertificateRequest_record SpecModel.deps SpecModel.web "web-364324867"
              SpecModel.webKeyData SpecModel.start webPEM (snd webCSR)
              webCSR_ok web_labels_allocated)
    as (cr & σ' & Hrun & Hgen & Hann & _).
  exists cr, σ'. split; [exact Hrun|]. split; [exact Hgen|].
  rewrite Hann. reflexivity.
Defined.

(** A key size of 0 is rejected by the key generator: the invocation ends
    there. *)
Lemma Run_unsupported_algorithm :
  Run SpecModel.deps (SpecModel.factory [SpecModel.unsupported]) SpecModel.start
  = (inl "error when generating private key",
     failed SpecModel.start (entropy SpecModel.start)
       [ConvertToVersion_; Printf_; ComputeCertificateRequestName_]
       GeneratePrivateKeyForCertificate_).
Proof.
  destruct (Run_first_error SpecModel.deps (SpecModel.factory [SpecModel.unsupported])
              "default" SpecModel.unsupported SpecModel.start
              (web_resolves SpecModel.unsupported)) as [_ Hnamed].
  destruct (Hnamed _ eq_refl) as [Hgen _].
  apply (Hgen "UnsupportedAlgorithm"). vm_compute. reflexivity.
Defined.

(** The PEM text of the scenario decodes to the DER that was wrapped. *)
Lemma generateCSR_pem_envelope_web :
  exists der,
    webPEM = "-----BEGIN CERTIFICATE REQUEST-----"
               +:+ String nl (pem.lineBreaker 0 (base64.EncodeToString der)
                                +:+ "-----END CERTIFICATE REQUEST-----"
                                +:+ String nl EmptyString)
    /\ pem.Decode webPEM
       = Some {| pem.Type_ := "CERTIFICATE REQUEST"; pem.Bytes := der |}.
Proof.
  destruct (generateCSR_pem_envelope SpecModel.deps SpecModel.web SpecModel.webKeyData
              SpecModel.start webPEM (snd webCSR) webCSR_ok)
    as (csr & signer & der & rest & _ & _ & _ & Hout & Hdec).
  exists der. split; [exact Hout | exact Hdec].
Defined.


(** The invocation of the scenario succeeds. *)
Lemma webRun_ok : webRun = (inr tt, snd webRun).
Proof. vm_compute. reflexivity. Defined.


(** No object, and two objects. *)
Lemma Run_exactly_one_object_none :
  Run SpecModel.deps (SpecModel.factory []) SpecModel.start
  = (inl "no object passed to create certificaterequest", SpecModel.start)
  /\ Run SpecModel.deps (SpecModel.factory [SpecModel.web; SpecModel.webCopy])
       SpecModel.start
     = (inl "multiple objects passed to create certificaterequest", SpecModel.start).
Proof.
  split.
  - destruct (Run_exactly_one_object SpecModel.deps (SpecModel.factory [])
                SpecModel.start ("default", false) [] eq_refl eq_refl eq_refl)
      as [Hnone _].
    exact (Hnone eq_refl).
  - destruct (Run_exactly_one_object SpecModel.deps
                (SpecModel.factory [SpecModel.web; SpecModel.webCopy])
                SpecModel.start ("default", false) _ eq_refl eq_refl eq_refl)
      as (_ & Hmany & _).
    apply Hmany. cbn. lia.
Defined.

(** The maps of the scenario's certificate after the call. *)
Lemma buildCertificateRequest_frame_web :
  entries (heap (snd webBuild)) (metav1.Annotations (Certificate.ObjectMeta SpecModel.web))
  = {[ "team" := "edge" ]}
  /\ entries (heap (snd webBuild)) (metav1.Labels (Certificate.ObjectMeta SpecModel.web))
     = {[ "app" := "web" ]}.
Proof.
  destruct (buildCertificateRequest_frame SpecModel.deps SpecModel.web "web-364324867"
              SpecModel.webKeyData SpecModel.start (fst webBuild) (snd webBuild)
              (surjective_pairing webBuild)
              web_annotations_allocated web_labels_allocated)
    as (_ & Hann & Hlab & _).
  split; [rewrite Hann | rewrite Hlab]; reflexivity.
Defined.

(** The key bytes of the scenario decode to the generated key, and the
    invocation creates the request. *)
Lemma key_codec_round_trip_web :
  SpecModel.decode SpecModel.webKeyData = inr SpecModel.webKey
  /\ exists σ' req,
       Run SpecModel.deps (SpecModel.factory [SpecModel.web]) SpecModel.start = (inr tt, σ')
       /\ last (trace σ') = Some (Created "default" req).
Proof.
  destruct key_codec_round_trip as (Hcodec & _ & Hrun). split.
  - apply (Hcodec SpecModel.webKey "pkcs1"). vm_compute. reflexivity.
  - edestruct (Hrun (SpecModel.factory [SpecModel.web]) "default" SpecModel.web
                 SpecModel.start SpecModel.webKey)
      as (_ & σ' & req & Hok & Hlast & _).
    + apply web_resolves.
    + vm_compute. reflexivity.
    + vm_compute. reflexivity.
    + vm_compute. reflexivity.
    + vm_compute. reflexivity.
    + exists σ', req. split; [exact Hok | exact Hlast].
Defined.

(** ** The command beyond the pipeline *)

Section beyond.
Context (D : Deps).

(** [Run] either rejects what the factory resolved, touching nothing, or
    runs the loop body on the one object. *)
Lemma Run_cases (f : Factory) (σ : state) :
  (exists e, Run D f σ = (inl e, σ))
  \/ (exists cmdNamespace enforceNamespace info,
        ToNamespace f = inr (cmdNamespace, enforceNamespace)
        /\ BuilderErr f = None
        /\ ToInfos f = inr [info]
        /\ Run D f σ = runInfo D cmdNamespace info σ).
Proof.
  unfold Run. unfold bind at 1.
  destruct (ToNamespace f) as [e|[cmdNamespace enforceNamespace]];
    unfold orReturn at 1; [left; eexists; reflexivity|].
  unfold ret at 1. destruct (BuilderErr f) as [e|]; [left; eexists; reflexivity|].
  unfold bind at 1. destruct (ToInfos f) as [e|infos];
    unfold orReturn at 1; [left; eexists; reflexivity|].
  unfold ret at 1.
  destruct infos as [|info [|info' infos]];
    [left; eexists; reflexivity | | left; eexists; reflexivity].
  right. exists cmdNamespace, enforceNamespace, info. repeat split.
  cbn [length Nat.eqb Nat.ltb Nat.leb]. apply forEach_single.
Qed.

Lemma runInfo_not_converted (cmdNamespace : string) (info : Info) (σ : state) (e : error) :
  ConvertToVersion D (InfoObject info) = inl e ->
  runInfo D cmdNamespace info σ =
    (inl ("failed to convert certificate into version v1alpha2: " +:+ e),
     logged σ [Call ConvertToVersion_; Failure ConvertToVersion_]).
Proof.
  intros H. unfold runInfo, call, bind, log, ret, throw, logged. rewrite H. norm. reflexivity.
Qed.

Lemma runInfo_not_certificate (cmdNamespace : string) (info : Info) (σ : state)
    (kind : string) :
  ConvertToVersion D (InfoObject info) = inr (OtherObject kind) ->
  runInfo D cmdNamespace info σ =
    (inl "decoded object is not a v1alpha2 Certificate", logged σ [Call ConvertToVersion_]).
Proof.
  intros H. unfold runInfo, call, bind, log, ret, throw, logged. rewrite H. reflexivity.
Qed.

(** X1. The errors of the input, in the order in which [Run] looks for
    them: the namespace error as it is, the builder error, the error of
    the object list, a failed conversion, an object that is not a
    certificate.  The first three leave the state untouched. *)
Theorem Run_input_errors (f : Factory) (σ : state) :
  (forall e, ToNamespace f = inl e -> Run D f σ = (inl e, σ))
  /\ (forall ns e,
        ToNamespace f = inr ns -> BuilderErr f = Some e ->
        Run D f σ = (inl ("error here: " +:+ e), σ))
  /\ (forall ns e,
        ToNamespace f = inr ns -> BuilderErr f = None -> ToInfos f = inl e ->
        Run D f σ = (inl ("error here instead: " +:+ e), σ))
  /\ (forall ns info e,
        ToNamespace f = inr ns -> BuilderErr f = None -> ToInfos f = inr [info] ->
        ConvertToVersion D (InfoObject info) = inl e ->
        Run D f σ = (inl ("failed to convert certificate into version v1alpha2: " +:+ e),
                     logged σ [Call ConvertToVersion_; Failure ConvertToVersion_]))
  /\ (forall ns info kind,
        ToNamespace f = inr ns -> BuilderErr f = None -> ToInfos f = inr [info] ->
        ConvertToVersion D (InfoObject info) = inr (OtherObject kind) ->
        Run D f σ = (inl "decoded object is not a v1alpha2 Certificate",
                     logged σ [Call ConvertToVersion_])).
Proof.
  assert (Hone : forall ns info,
             ToNamespace f = inr ns -> BuilderErr f = None -> ToInfos f = inr [info] ->
             Run D f σ = runInfo D ns.1 info σ).
  { intros [cmdNamespace enforceNamespace] info Hns Herr Hinfos.
    unfold Run. unfold bind at 1. rewrite Hns. unfold orReturn at 1, ret at 1.
    rewrite Herr. unfold bind at 1. rewrite Hinfos. unfold orReturn at 1, ret at 1.
    cbn [length Nat.eqb Nat.ltb Nat.leb fst]. apply forEach_single. }
  repeat split.
  - intros e Hns. unfold Run, bind. rewrite Hns. reflexivity.
  - intros [cmdNamespace enforceNamespace] e Hns Herr.
    unfold Run, bind. rewrite Hns, Herr. reflexivity.
  - intros [cmdNamespace enforceNamespace] e Hns Herr Hinfos.
    unfold Run. unfold bind at 1. rewrite Hns. unfold orReturn at 1, ret at 1.
    rewrite Herr. unfold bind. rewrite Hinfos. reflexivity.
  - intros ns info e Hns Herr Hinfos Hconv.
    rewrite (Hone ns info Hns Herr Hinfos). apply runInfo_not_converted, Hconv.
  - intros ns info kind Hns Herr Hinfos Hconv.
    rewrite (Hone ns info Hns Herr Hinfos). apply (runInfo_not_certificate _ _ _ kind), Hconv.
Qed.

(** X2. Unless the factory resolves exactly one object that converts to a
    certificate, [Run] fails and does nothing but, at most, the conversion:
    no key is generated (the random source is not read), no map is
    allocated and nothing is created. *)
Theorem Run_rejected (f : Factory) (σ : state) (r : error + unit) (σ' : state) :
  (forall cmdNamespace crt, ~ resolves D f cmdNamespace crt) ->
  Run D f σ = (r, σ') ->
  (exists e, r = inl e)
  /\ heap σ' = heap σ
  /\ entropy σ' = entropy σ
  /\ (trace σ' = trace σ
      \/ trace σ' = trace σ ++ [Call ConvertToVersion_]
      \/ trace σ' = trace σ ++ [Call ConvertToVersion_; Failure ConvertToVersion_]).
Proof.
  intros Hnot Hrun.
  destruct (Run_cases f σ) as [[e He]|(ns & enf & info & Hns & Herr & Hinfos & Hbody)].
  - rewrite He in Hrun. injection Hrun as <- <-.
    split; [eexists; reflexivity|]. repeat split. left. reflexivity.
  - rewrite Hbody in Hrun.
    destruct (ConvertToVersion D (InfoObject info)) as [e|[crt|kind]] eqn:Hconv.
    + rewrite (runInfo_not_converted _ _ _ e Hconv) in Hrun. injection Hrun as <- <-.
      split; [eexists; reflexivity|]. repeat split. right. right. reflexivity.
    + exfalso. apply (Hnot ns crt). exists enf, info. repeat split; assumption.
    + rewrite (runInfo_not_certificate _ _ _ kind Hconv) in Hrun. injection Hrun as <- <-.
      split; [eexists; reflexivity|]. repeat split. right. left. reflexivity.
Qed.

End beyond.

Section outcome.
Context (D : Deps).

(** X3. For a resolved certificate [Run] succeeds exactly when every
    library call succeeds; the final state is then determined: the heap
    gained the annotations map of the request, the random source was read
    by key generation and then by signing, and the trace gained the whole
    sequence of events. *)
Theorem Run_succeeds_iff (f : Factory) (cmdNamespace : string) (crt : Certificate.t)
    (σ σ' : state) :
  resolves D f cmdNamespace crt ->
  Run D f σ = (inr tt, σ') <->
  exists name signer rest keyData csr signer' der rest' obj,
    ComputeCertificateRequestName D crt = inr name
    /\ GeneratePrivateKeyForCertificate D crt (entropy σ) = (inr signer, rest)
    /\ EncodePrivateKey D signer (CertificateSpec.KeyEncoding (Certificate.Spec crt))
       = inr keyData
    /\ GenerateCSR D crt = inr csr
    /\ DecodePrivateKeyBytes D keyData = inr signer'
    /\ EncodeCSR D csr signer' rest = (inr der, rest')
    /\ let l := fresh (dom (heap σ)) in
       let req := assembled crt (pem.EncodeToMemory (csrBlock der)) l in
       let h :=
         <[l := injected D crt
                  (entries (heap σ) (metav1.Annotations (Certificate.ObjectMeta crt)))]>
           (heap σ) in
       Create D (namespaceFor cmdNamespace crt) req h = inr obj
       /\ σ' = {| heap := h; entropy := rest';
                  trace := trace σ ++ fullRun l (namespaceFor cmdNamespace crt) req |}.
Proof.
  intros Hres. rewrite (Run_eq D f cmdNamespace crt σ Hres). split.
  - destruct (ComputeCertificateRequestName D crt) as [e|name] eqn:Hname; [discriminate|].
    destruct (GeneratePrivateKeyForCertificate D crt (entropy σ)) as [[e|signer] rest]
      eqn:Hgen; [discriminate|].
    destruct (EncodePrivateKey D signer _) as [e|keyData] eqn:Henc; [discriminate|].
    destruct (GenerateCSR D crt) as [e|csr] eqn:Hcsr; [discriminate|].
    destruct (DecodePrivateKeyBytes D keyData) as [e|signer'] eqn:Hdec; [discriminate|].
    destruct (EncodeCSR D csr signer' rest) as [[e|der] rest'] eqn:Hsign; [discriminate|].
    cbv zeta. destruct (Create D _ _ _) as [e|obj] eqn:Hcreate; [discriminate|].
    intros [= <-]. exists name, signer, rest, keyData, csr, signer', der, rest', obj.
    cbv zeta. cbn [heap] in Hcreate.
    do 6 (split; [reflexivity || assumption|]). split; [exact Hcreate|].
    traces.
  - intros (name & signer & rest & keyData & csr & signer' & der & rest' & obj
            & -> & -> & -> & -> & -> & -> & Hcreate & ->).
    cbv zeta. cbn [heap]. rewrite Hcreate. traces.
Qed.

(** X4. A successful invocation creates one request and only one.  It is
    created in the certificate's namespace, or in the namespace of the
    command when the certificate has none, and it is the last event. *)
Theorem Run_creates_one_request (f : Factory) (cmdNamespace : string) (crt : Certificate.t)
    (σ σ' : state) :
  resolves D f cmdNamespace crt ->
  Run D f σ = (inr tt, σ') ->
  exists evs req,
    trace σ' = trace σ ++ evs ++ [Created (namespaceFor cmdNamespace crt) req]
    /\ (forall ns req', Created ns req' ∉ evs)
    /\ namespaceFor cmdNamespace crt
       = (if decide (metav1.Namespace (Certificate.ObjectMeta crt) = "")
          then cmdNamespace
          else metav1.Namespace (Certificate.ObjectMeta crt))
    /\ metav1.GenerateName (CertificateRequest.ObjectMeta req)
       = metav1.Name (Certificate.ObjectMeta crt) +:+ "-"
    /\ metav1.Namespace (CertificateRequest.ObjectMeta req) = "".
Proof.
  intros Hres Hrun. rewrite (Run_eq D f cmdNamespace crt σ Hres) in Hrun.
  destruct (ComputeCertificateRequestName D crt); [discriminate Hrun|].
  destruct (GeneratePrivateKeyForCertificate D crt (entropy σ)) as [[?|?] ?];
    [discriminate Hrun|].
  destruct (EncodePrivateKey D _ _); [discriminate Hrun|].
  destruct (GenerateCSR D crt); [discriminate Hrun|].
  destruct (DecodePrivateKeyBytes D _); [discriminate Hrun|].
  destruct (EncodeCSR D _ _ _) as [[?|?] ?]; [discriminate Hrun|].
  cbv zeta in Hrun. destruct (Create D _ _ _); [discriminate Hrun|].
  injection Hrun as <-.
  eexists (attempted _), _. split; [traces|].
  split; [|split; [|split; reflexivity]].
  - intros ns req' Hin. unfold attempted, pipeline in Hin. cbn [map app] in Hin.
    repeat (apply elem_of_cons in Hin as [Hin|Hin]; [discriminate Hin|]).
    apply elem_of_nil in Hin. exact Hin.
  - unfold namespaceFor.
    destruct (decide (metav1.Namespace (Certificate.ObjectMeta crt) = "")) as [->|Hne];
      [reflexivity|].
    destruct (String.eqb _ "") eqn:E; [|reflexivity].
    apply String.eqb_eq in E. contradiction.
Qed.

(** X5. When the API server refuses the request, [Run] returns its error
    behind the prefix of the create step.  By then the key was generated,
    the CSR signed and the annotations map allocated; the trace ends with
    the failed create call and holds no creation. *)
Theorem Run_create_refused (f : Factory) (cmdNamespace : string) (crt : Certificate.t)
    (σ : state) name signer rest keyData csr signer' der rest' e :
  resolves D f cmdNamespace crt ->
  ComputeCertificateRequestName D crt = inr name ->
  GeneratePrivateKeyForCertificate D crt (entropy σ) = (inr signer, rest) ->
  EncodePrivateKey D signer (CertificateSpec.KeyEncoding (Certificate.Spec crt))
    = inr keyData ->
  GenerateCSR D crt = inr csr ->
  DecodePrivateKeyBytes D keyData = inr signer' ->
  EncodeCSR D csr signer' rest = (inr der, rest') ->
  Create D (namespaceFor cmdNamespace crt)
    (assembled crt (pem.EncodeToMemory (csrBlock der)) (fresh (dom (heap σ))))
    (<[fresh (dom (heap σ)) :=
         injected D crt (entries (heap σ) (metav1.Annotations (Certificate.ObjectMeta crt)))]>
       (heap σ))
  = inl e ->
  exists σ',
    Run D f σ = (inl ("error when creating CertifcateRequest through client: " +:+ e), σ')
    /\ trace σ' = trace σ ++ attempted (fresh (dom (heap σ))) ++ [Failure Create_]
    /\ entropy σ' = rest'
    /\ dom (heap σ') = {[ fresh (dom (heap σ)) ]} ∪ dom (heap σ)
    /\ (forall ns req,
          Created ns req ∉ attempted (fresh (dom (heap σ))) ++ [Failure Create_]).
Proof.
  intros Hres Hname Hgen Henc Hcsr Hdec Hsign Hcreate.
  rewrite (Run_eq D f cmdNamespace crt σ Hres), Hname, Hgen, Henc, Hcsr, Hdec, Hsign.
  cbv zeta. cbn [heap]. rewrite Hcreate. eexists. split; [reflexivity|].
  cbn [logged heap entropy trace]. repeat split.
  - unfold attempted. rewrite <- ?app_assoc. reflexivity.
  - apply dom_insert_L.
  - intros ns req Hin. unfold attempted, pipeline in Hin. cbn [map app] in Hin.
    repeat (apply elem_of_cons in Hin as [Hin|Hin]; [discriminate Hin|]).
    apply elem_of_nil in Hin. exact Hin.
Qed.

End outcome.

Section frames.
Context (D : Deps).

(** X6. [generateCSR] never touches the heap.  It looks at the certificate
    first and at the key bytes second: a certificate that gives no CSR is
    reported whatever the key bytes are, and in both cases the random
    source is not read. *)
Theorem generateCSR_frame (crt : Certificate.t) (pk : bytes) (σ : state)
    (r : error + bytes) (σ' : state) :
  generateCSR D crt pk σ = (r, σ') ->
  heap σ' = heap σ
  /\ (forall e, GenerateCSR D crt = inl e -> r = inl e /\ entropy σ' = entropy σ)
  /\ (forall csr e,
        GenerateCSR D crt = inr csr -> DecodePrivateKeyBytes D pk = inl e ->
        r = inl e /\ entropy σ' = entropy σ).
Proof.
  rewrite generateCSR_eq. intros Hrun. split; [|split].
  - destruct (GenerateCSR D crt); [injection Hrun as _ <-; reflexivity|].
    destruct (DecodePrivateKeyBytes D pk); [injection Hrun as _ <-; reflexivity|].
    destruct (EncodeCSR D _ _ _) as [[?|?] ?]; injection Hrun as _ <-; reflexivity.
  - intros e He. rewrite He in Hrun. injection Hrun as <- <-. split; reflexivity.
  - intros csr e Hcsr Hdec. rewrite Hcsr, Hdec in Hrun. injection Hrun as <- <-.
    split; reflexivity.
Qed.

(** X7. The assembly itself cannot fail: [buildCertificateRequest]
    succeeds exactly when [generateCSR] does, and when it fails it returns
    the error and the state of [generateCSR], so no map was allocated. *)
Theorem buildCertificateRequest_fails_with_generateCSR (crt : Certificate.t)
    (name : string) (pk : bytes) (σ : state) :
  (forall e σ',
     buildCertificateRequest D crt name pk σ = (inl e, σ') <->
     generateCSR D crt pk σ = (inl e, σ'))
  /\ ((exists cr σ', buildCertificateRequest D crt name pk σ = (inr cr, σ')) <->
      (exists csrPEM σ1, generateCSR D crt pk σ = (inr csrPEM, σ1)))
  /\ (forall e σ',
        buildCertificateRequest D crt name pk σ = (inl e, σ') ->
        heap σ' = heap σ /\ forall l, Make l ∈ trace σ' -> Make l ∈ trace σ).
Proof.
  rewrite buildCertificateRequest_eq.
  destruct (generateCSR D crt pk σ) as [[e0|csrPEM] σ1] eqn:Hcsr.
  - split; [intros e σ'; split; intros [= -> ->]; reflexivity|]. split.
    + split; intros (? & ? & [=]).
    + intros e σ' [= <- <-]. rewrite generateCSR_eq in Hcsr.
      destruct (GenerateCSR D crt).
      { injection Hcsr as _ <-. split; [reflexivity|]. intros l Hin.
        cbn [failed trace map app] in Hin.
        apply elem_of_app in Hin as [Hin|Hin]; [exact Hin|].
        repeat (apply elem_of_cons in Hin as [Hin|Hin]; [discriminate Hin|]).
        apply elem_of_nil in Hin. contradiction. }
      destruct (DecodePrivateKeyBytes D pk).
      { injection Hcsr as _ <-. split; [reflexivity|]. intros l Hin.
        cbn [failed trace map app] in Hin.
        apply elem_of_app in Hin as [Hin|Hin]; [exact Hin|].
        repeat (apply elem_of_cons in Hin as [Hin|Hin]; [discriminate Hin|]).
        apply elem_of_nil in Hin. contradiction. }
      destruct (EncodeCSR D _ _ _) as [[?|?] ?]; [|discriminate Hcsr].
      injection Hcsr as _ <-. split; [reflexivity|]. intros l Hin.
      cbn [failed trace map app] in Hin.
      apply elem_of_app in Hin as [Hin|Hin]; [exact Hin|].
      repeat (apply elem_of_cons in Hin as [Hin|Hin]; [discriminate Hin|]).
      apply elem_of_nil in Hin. contradiction.
  - cbv zeta. split; [intros e σ'; split; intros [=]|]. split.
    + split; intros _; eexists _, _; reflexivity.
    + intros e σ' [=].
Qed.

(** The heap that [buildCertificateRequest] leaves and the reference it
    returns. *)
Lemma buildCertificateRequest_heap (crt : Certificate.t) (name : string) (pk : bytes)
    (σ : state) (cr : CertificateRequest.t) (σ' : state) :
  buildCertificateRequest D crt name pk σ = (inr cr, σ') ->
  metav1.Annotations (CertificateRequest.ObjectMeta cr) = Some (fresh (dom (heap σ)))
  /\ metav1.Labels (CertificateRequest.ObjectMeta cr)
     = metav1.Labels (Certificate.ObjectMeta crt)
  /\ heap σ' = <[fresh (dom (heap σ)) :=
                   injected D crt
                     (entries (heap σ) (metav1.Annotations (Certificate.ObjectMeta crt)))]>
                 (heap σ).
Proof.
  rewrite buildCertificateRequest_eq, generateCSR_eq.
  destruct (GenerateCSR D crt); [discriminate|].
  destruct (DecodePrivateKeyBytes D pk); [discriminate|].
  destruct (EncodeCSR D _ _ _) as [[?|?] ?]; [discriminate|].
  cbv zeta. cbn [stepped heap]. intros [= <- <-]. repeat split.
Qed.


End frames.

Section sharing.
Context (D : Deps).

(** X9. The record has its own annotations but the certificate's labels:
    a later write to the record's annotations map leaves the certificate's
    annotations as they were, and a later write to the record's labels map
    shows in the certificate's labels. *)
Theorem buildCertificateRequest_sharing (crt : Certificate.t) (name : string) (pk : bytes)
    (σ : state) (cr : CertificateRequest.t) (σ' : state) (k v : string) :
  buildCertificateRequest D crt name pk σ = (inr cr, σ') ->
  allocated (heap σ) (metav1.Annotations (Certificate.ObjectMeta crt)) ->
  allocated (heap σ) (metav1.Labels (Certificate.ObjectMeta crt)) ->
  (forall l,
     metav1.Annotations (CertificateRequest.ObjectMeta cr) = Some l ->
     entries (heap (snd (mapassign l k v σ')))
       (metav1.Annotations (Certificate.ObjectMeta crt))
     = entries (heap σ) (metav1.Annotations (Certificate.ObjectMeta crt)))
  /\ (forall l,
        metav1.Labels (CertificateRequest.ObjectMeta cr) = Some l ->
        entries (heap (snd (mapassign l k v σ'))) (metav1.Labels (Certificate.ObjectMeta crt))
        = <[k := v]> (entries (heap σ) (metav1.Labels (Certificate.ObjectMeta crt)))).
Proof.
  intros Hrun Hann Hlab.
  destruct (buildCertificateRequest_heap _ _ _ _ _ _ _ Hrun) as (Hra & Hrl & Hheap).
  assert (Hfresh : heap σ !! fresh (dom (heap σ)) = None)
    by (apply not_elem_of_dom, is_fresh).
  split.
  - intros l Hl. rewrite Hra in Hl. injection Hl as <-.
    destruct (metav1.Annotations (Certificate.ObjectMeta crt)) as [a|]; [|reflexivity].
    cbn [allocated] in Hann. destruct Hann as [x Hx].
    assert (Hne : fresh (dom (heap σ)) <> a) by (intros <-; congruence).
    cbn [mapassign snd heap entries]. rewrite Hheap.
    rewrite lookup_alter_ne, lookup_insert_ne by assumption. reflexivity.
  - intros l Hl. rewrite Hrl in Hl. rewrite Hl in Hlab |- *.
    cbn [allocated] in Hlab. destruct Hlab as [x Hx].
    assert (Hne : fresh (dom (heap σ)) <> l) by (intros <-; congruence).
    cbn [mapassign snd heap entries]. rewrite Hheap.
    rewrite lookup_alter_eq, lookup_insert_ne, Hx by assumption. reflexivity.
Qed.

(** X10. Two records never share their annotations map: a second call
    allocates another map and leaves the annotations of the first record
    as they were. *)
Theorem buildCertificateRequest_twice (crt1 crt2 : Certificate.t) (name1 name2 : string)
    (pk1 pk2 : bytes) (σ σ1 σ2 : state) (cr1 cr2 : CertificateRequest.t) :
  buildCertificateRequest D crt1 name1 pk1 σ = (inr cr1, σ1) ->
  buildCertificateRequest D crt2 name2 pk2 σ1 = (inr cr2, σ2) ->
  metav1.Annotations (CertificateRequest.ObjectMeta cr1)
    <> metav1.Annotations (CertificateRequest.ObjectMeta cr2)
  /\ entries (heap σ2) (metav1.Annotations (CertificateRequest.ObjectMeta cr1))
     = entries (heap σ1) (metav1.Annotations (CertificateRequest.ObjectMeta cr1)).
Proof.
  intros Hrun1 Hrun2.
  destruct (buildCertificateRequest_heap _ _ _ _ _ _ _ Hrun1) as (Ha1 & _ & Hh1).
  destruct (buildCertificateRequest_heap _ _ _ _ _ _ _ Hrun2) as (Ha2 & _ & Hh2).
  assert (Hin : fresh (dom (heap σ)) ∈ dom (heap σ1)).
  { rewrite Hh1, dom_insert_L. set_solver. }
  assert (Hne : fresh (dom (heap σ1)) <> fresh (dom (heap σ))).
  { intros Heq. apply (is_fresh (dom (heap σ1))). rewrite Heq. exact Hin. }
  rewrite Ha1, Ha2. split; [congruence|].
  cbn [entries]. rewrite Hh2, lookup_insert_ne by assumption. reflexivity.
Qed.

(** X11. [Run] leaves every map that existed before the invocation as it
    was, whatever the outcome, and allocates at most one map. *)
Theorem Run_heap_frame (f : Factory) (σ : state) (r : error + unit) (σ' : state) :
  Run D f σ = (r, σ') ->
  (forall l m, heap σ !! l = Some m -> heap σ' !! l = Some m)
  /\ (heap σ' = heap σ
      \/ exists m, heap σ' = <[fresh (dom (heap σ)) := m]> (heap σ)).
Proof.
  intros Hrun.
  assert (Hstep : heap σ' = heap σ
                  \/ exists m, heap σ' = <[fresh (dom (heap σ)) := m]> (heap σ)).
  { destruct (Run_cases D f σ) as [[e He]|(ns & enf & info & Hns & Herr & Hinfos & Hbody)].
    - rewrite He in Hrun. injection Hrun as _ <-. left. reflexivity.
    - destruct (ConvertToVersion D (InfoObject info)) as [e|[crt|kind]] eqn:Hconv.
      + rewrite Hbody, (runInfo_not_converted D _ _ _ e Hconv) in Hrun.
        injection Hrun as _ <-. left. reflexivity.
      + assert (Hres : resolves D f ns crt) by (exists enf, info; repeat split; assumption).
        rewrite (Run_eq D f ns crt σ Hres) in Hrun.
        destruct (ComputeCertificateRequestName D crt);
          [injection Hrun as _ <-; left; reflexivity|].
        destruct (GeneratePrivateKeyForCertificate D crt (entropy σ)) as [[?|?] ?];
          [injection Hrun as _ <-; left; reflexivity|].
        destruct (EncodePrivateKey D _ _); [injection Hrun as _ <-; left; reflexivity|].
        destruct (GenerateCSR D crt); [injection Hrun as _ <-; left; reflexivity|].
        destruct (DecodePrivateKeyBytes D _); [injection Hrun as _ <-; left; reflexivity|].
        destruct (EncodeCSR D _ _ _) as [[?|?] ?];
          [injection Hrun as _ <-; left; reflexivity|].
        cbv zeta in Hrun. destruct (Create D _ _ _); injection Hrun as _ <-;
          right; eexists; reflexivity.
      + rewrite Hbody, (runInfo_not_certificate D _ _ _ kind Hconv) in Hrun.
        injection Hrun as _ <-. left. reflexivity. }
  split; [|exact Hstep].
  intros l m Hl. destruct Hstep as [->|[x ->]]; [exact Hl|].
  rewrite lookup_insert_ne; [exact Hl|].
  intros <-. rewrite (not_elem_of_dom_1 (heap σ) (fresh (dom (heap σ)))) in Hl;
    [discriminate|apply is_fresh].
Qed.

(** X12. The identifier that the namer computes has no effect: with any
    other namer that succeeds on the certificate, the invocation returns
    the same result in the same state. *)
Theorem Run_ignores_computed_name (f : Factory) (cmdNamespace : string)
    (crt : Certificate.t) (σ : state) (namer : Certificate.t -> error + string)
    (name name' : string) :
  resolves D f cmdNamespace crt ->
  ComputeCertificateRequestName D crt = inr name ->
  namer crt = inr name' ->
  Run (withNamer D namer) f σ = Run D f σ.
Proof.
  intros Hres Hname Hname'.
  assert (Hres' : resolves (withNamer D namer) f cmdNamespace crt) by exact Hres.
  rewrite (Run_eq D f cmdNamespace crt σ Hres),
    (Run_eq (withNamer D namer) f cmdNamespace crt σ Hres').
  cbn [withNamer ComputeCertificateRequestName GeneratePrivateKeyForCertificate
       EncodePrivateKey GenerateCSR DecodePrivateKeyBytes EncodeCSR Create
       CRPrivateKeyAnnotationKey CertificateNameKey].
  rewrite Hname, Hname'. reflexivity.
Qed.

End sharing.

Section failure.
Context (D : Deps).

(** Calls and their failures are no creations. *)
Lemma calls_create_nothing (cs : list callee) (tl : list event) (ns : string)
    (req : CertificateRequest.t) :
  Created ns req ∉ tl -> Created ns req ∉ map Call cs ++ tl.
Proof.
  intros Htl. induction cs as [|c cs IH]; cbn [map app]; [exact Htl|].
  intros Hin. apply elem_of_cons in Hin as [Hin|Hin]; [discriminate Hin|].
  exact (IH Hin).
Qed.

(** X13. An invocation that returns an error has created nothing: the
    events it added to the trace hold no creation, whatever the factory
    resolved and whichever step failed. *)
Theorem Run_failure_creates_nothing (f : Factory) (σ : state) (e : error) (σ' : state) :
  Run D f σ = (inl e, σ') ->
  exists evs,
    trace σ' = trace σ ++ evs /\ forall ns req, Created ns req ∉ evs.
Proof.
  intros Hrun.
  assert (Hfailed : forall rest cs c,
             exists evs,
               trace (failed σ rest cs c) = trace σ ++ evs
               /\ forall ns req, Created ns req ∉ evs).
  { intros rest cs c. eexists. split; [reflexivity|].
    intros ns req. apply calls_create_nothing. intros Hin.
    repeat (apply elem_of_cons in Hin as [Hin|Hin]; [discriminate Hin|]).
    apply elem_of_nil in Hin. exact Hin. }
  destruct (Run_cases D f σ) as [[e0 He]|(ns & enf & info & Hns & Herr & Hinfos & Hbody)].
  - rewrite He in Hrun. injection Hrun as _ <-. exists []. rewrite app_nil_r.
    split; [reflexivity|]. intros ns req Hin. apply elem_of_nil in Hin. exact Hin.
  - destruct (ConvertToVersion D (InfoObject info)) as [e0|[crt|kind]] eqn:Hconv.
    + rewrite Hbody, (runInfo_not_converted D _ _ _ e0 Hconv) in Hrun.
      injection Hrun as _ <-. eexists. split; [reflexivity|]. intros ns0 req Hin.
      repeat (apply elem_of_cons in Hin as [Hin|Hin]; [discriminate Hin|]).
      apply elem_of_nil in Hin. exact Hin.
    + assert (Hres : resolves D f ns crt) by (exists enf, info; repeat split; assumption).
      rewrite (Run_eq D f ns crt σ Hres) in Hrun.
      destruct (ComputeCertificateRequestName D crt);
        [injection Hrun as _ <-; apply Hfailed|].
      destruct (GeneratePrivateKeyForCertificate D crt (entropy σ)) as [[?|?] ?];
        [injection Hrun as _ <-; apply Hfailed|].
      destruct (EncodePrivateKey D _ _); [injection Hrun as _ <-; apply Hfailed|].
      destruct (GenerateCSR D crt); [injection Hrun as _ <-; apply Hfailed|].
      destruct (DecodePrivateKeyBytes D _); [injection Hrun as _ <-; apply Hfailed|].
      destruct (EncodeCSR D _ _ _) as [[?|?] ?];
        [injection Hrun as _ <-; apply Hfailed|].
      cbv zeta in Hrun. destruct (Create D _ _ _); [|discriminate Hrun].
      injection Hrun as _ <-. cbn [logged trace]. rewrite <- app_assoc.
      eexists. split; [reflexivity|]. intros ns0 req Hin. cbn [app] in Hin.
      repeat (apply elem_of_cons in Hin as [Hin|Hin]; [discriminate Hin|]).
      apply elem_of_nil in Hin. exact Hin.
    + rewrite Hbody, (runInfo_not_certificate D _ _ _ kind Hconv) in Hrun.
      injection Hrun as _ <-. eexists. split; [reflexivity|]. intros ns0 req Hin.
      repeat (apply elem_of_cons in Hin as [Hin|Hin]; [discriminate Hin|]).
      apply elem_of_nil in Hin. exact Hin.
Qed.

End failure.

(** ** Completing the options *)

Section complete.
Context (C : Cli).

(** X14. [Complete] succeeds exactly when the flags pass their check, the
    factory gives a configuration without error and the clientset is made
    from that configuration without error; the options then hold that
    configuration and that clientset. *)
Theorem Complete_succeeds_iff (o o' : Options C)
    (ToRESTConfig : option (Config C) * option error) :
  Complete o ToRESTConfig = (o', None) <->
  RequireFilenameOrKustomize C (FilenameOptions o) = None
  /\ snd ToRESTConfig = None
  /\ snd (NewForConfig C (fst ToRESTConfig)) = None
  /\ o' = Build_Options C (fst (NewForConfig C (fst ToRESTConfig))) (fst ToRESTConfig)
            (FilenameOptions o) (IOStreams o).
Proof.
  unfold Complete. destruct ToRESTConfig as [cfg err]. cbn [fst snd RESTConfig].
  destruct (RequireFilenameOrKustomize C (FilenameOptions o)) as [e|].
  { split; [intros [=] | intros ([=] & _)]. }
  destruct err as [e|].
  { split; [intros [=] | intros (_ & [=] & _)]. }
  destruct (NewForConfig C cfg) as [client [e|]]; cbn [fst snd].
  { split; [intros [=] | intros (_ & _ & [=] & _)]. }
  split.
  - intros [= <-]. repeat split.
  - intros (_ & _ & _ & ->). reflexivity.
Qed.

(** X15. [Complete] stops at its first error and returns it.  Flags that
    fail their check leave the options as they were, whatever the factory
    would give; a configuration error leaves the clientset as it was; and
    no outcome changes the file name flags or the streams. *)
Theorem Complete_first_error (o : Options C)
    (ToRESTConfig : option (Config C) * option error) :
  (forall e,
     RequireFilenameOrKustomize C (FilenameOptions o) = Some e ->
     Complete o ToRESTConfig = (o, Some e))
  /\ (forall e,
        RequireFilenameOrKustomize C (FilenameOptions o) = None ->
        snd ToRESTConfig = Some e ->
        snd (Complete o ToRESTConfig) = Some e
        /\ CMClient (fst (Complete o ToRESTConfig)) = CMClient o
        /\ RESTConfig (fst (Complete o ToRESTConfig)) = fst ToRESTConfig)
  /\ (forall e,
        RequireFilenameOrKustomize C (FilenameOptions o) = None ->
        snd ToRESTConfig = None ->
        snd (NewForConfig C (fst ToRESTConfig)) = Some e ->
        snd (Complete o ToRESTConfig) = Some e)
  /\ FilenameOptions (fst (Complete o ToRESTConfig)) = FilenameOptions o
  /\ IOStreams (fst (Complete o ToRESTConfig)) = IOStreams o.
Proof.
  unfold Complete. destruct ToRESTConfig as [cfg err]. cbn [fst snd RESTConfig].
  destruct (RequireFilenameOrKustomize C (FilenameOptions o)) as [e0|].
  { split; [intros e [= ->]; reflexivity|].
    split; [intros e [=]|]. split; [intros e [=]|]. split; reflexivity. }
  destruct err as [e1|].
  { split; [intros e [=]|].
    split; [intros e _ [= ->]; repeat split|].
    split; [intros e _ [=]|]. split; reflexivity. }
  destruct (NewForConfig C cfg) as [client [e2|]]; cbn [fst snd].
  - split; [intros e [=]|]. split; [intros e _ [=]|].
    split; [intros e _ _ [= ->]; reflexivity|]. split; reflexivity.
  - split; [intros e [=]|]. split; [intros e _ [=]|].
    split; [intros e _ _ [=]|]. split; reflexivity.
Qed.

(** X16. Completing options that are complete changes nothing. *)
Theorem Complete_idempotent (o : Options C)
    (ToRESTConfig : option (Config C) * option error) :
  Complete (fst (Complete o ToRESTConfig)) ToRESTConfig = Complete o ToRESTConfig.
Proof.
  unfold Complete. destruct ToRESTConfig as [cfg err].
  destruct (RequireFilenameOrKustomize C (FilenameOptions o)) as [e0|] eqn:Hflags.
  { cbn [fst]. rewrite Hflags. reflexivity. }
  destruct err as [e1|].
  { cbn [fst FilenameOptions]. rewrite Hflags. reflexivity. }
  cbn [RESTConfig].
  destruct (NewForConfig C cfg) as [client [e2|]] eqn:Hclient;
    cbn [fst FilenameOptions RESTConfig CMClient IOStreams].
  all: rewrite Hflags; reflexivity.
Qed.

End complete.

(** ** The scenario, continued *)

(** An issuer manifest is turned down after the conversion. *)
Lemma Run_rejected_issuer :
  exists e σ',
    Run SpecModel.deps issuerFactory SpecModel.start = (inl e, σ')
    /\ heap σ' = heap SpecModel.start
    /\ entropy σ' = entropy SpecModel.start.
Proof.
  assert (Hnot : forall cmdNamespace crt,
             ~ resolves SpecModel.deps issuerFactory cmdNamespace crt).
  { intros cmdNamespace crt (enf & info & _ & _ & Hinfos & Hconv).
    cbn in Hinfos. injection Hinfos as <-. discriminate Hconv. }
  destruct (Run_rejected SpecModel.deps issuerFactory SpecModel.start _ _ Hnot
              (surjective_pairing _)) as ([e He] & Hheap & Hentropy & _).
  exists e, (snd (Run SpecModel.deps issuerFactory SpecModel.start)).
  split; [|split; assumption].
  rewrite <- He. apply surjective_pairing.
Defined.

(** The calls behind the successful invocation of the scenario. *)
Lemma Run_succeeds_iff_web :
  exists name signer rest keyData,
    ComputeCertificateRequestName SpecModel.deps SpecModel.web = inr name
    /\ GeneratePrivateKeyForCertificate SpecModel.deps SpecModel.web
         (entropy SpecModel.start) = (inr signer, rest)
    /\ EncodePrivateKey SpecModel.deps signer "pkcs1" = inr keyData.
Proof.
  destruct (proj1 (Run_succeeds_iff SpecModel.deps (SpecModel.factory [SpecModel.web])
                     "default" SpecModel.web SpecModel.start (snd webRun)
                     (web_resolves SpecModel.web)) webRun_ok)
    as (name & signer & rest & keyData & _ & _ & _ & _ & _ & Hname & Hgen & Henc & _).
  exists name, signer, rest, keyData. repeat split; assumption.
Defined.

Lemma stagingRun_ok : stagingRun = (inr tt, snd stagingRun).
Proof. vm_compute. reflexivity. Defined.

(** A certificate of the namespace "staging" gets its request there, not
    in the namespace of the command. *)
Lemma Run_creates_one_request_staging :
  exists evs req,
    trace (snd stagingRun) = trace SpecModel.start ++ evs ++ [Created "staging" req]
    /\ metav1.GenerateName (CertificateRequest.ObjectMeta req) = "web-".
Proof.
  destruct (Run_creates_one_request SpecModel.deps (SpecModel.factory [SpecModel.webCopy])
              "default" SpecModel.webCopy SpecModel.start (snd stagingRun)
              (web_resolves SpecModel.webCopy) stagingRun_ok)
    as (evs & req & Htrace & _ & _ & Hgen & _).
  exists evs, req. split; [exact Htrace | exact Hgen].
Defined.

(** The API server refuses the request of the scenario: the invocation
    fails at the create call, after the map was allocated. *)
Lemma Run_create_refused_conflict :
  exists σ',
    Run conflicting (SpecModel.factory [SpecModel.web]) SpecModel.start
    = (inl "error when creating CertifcateRequest through client: AlreadyExists", σ')
    /\ dom (heap σ') = {[ 3%positive ]} ∪ dom (heap SpecModel.start).
Proof.
  edestruct (Run_create_refused conflicting (SpecModel.factory [SpecModel.web])
               "default" SpecModel.web SpecModel.start)
    as (σ' & Hrun & _ & _ & Hdom & _).
  - exact (web_resolves SpecModel.web).
  - vm_compute. reflexivity.
  - vm_compute. reflexivity.
  - vm_compute. reflexivity.
  - vm_compute. reflexivity.
  - vm_compute. reflexivity.
  - vm_compute. reflexivity.
  - reflexivity.
  - exists σ'. split; [exact Hrun | exact Hdom].
Defined.

(** CSR generation in the scenario leaves the heap alone. *)
Lemma generateCSR_frame_web : heap (snd webCSR) = heap SpecModel.start.
Proof.
  destruct (generateCSR_frame SpecModel.deps SpecModel.web SpecModel.webKeyData
              SpecModel.start _ _ webCSR_ok) as [Hheap _].
  exact Hheap.
Defined.

Lemma firstBuild_ok : firstBuild = (inr (built firstBuild), snd firstBuild).
Proof. vm_compute. reflexivity. Defined.

Lemma secondBuild_ok : secondBuild = (inr (built secondBuild), snd secondBuild).
Proof. vm_compute. reflexivity. Defined.


(** A label written through the record shows in the certificate; an
    annotation written through the record does not. *)
Lemma buildCertificateRequest_sharing_web :
  entries (heap (snd (mapassign 3%positive "tier" "gold" (snd firstBuild))))
    (metav1.Annotations (Certificate.ObjectMeta SpecModel.web))
  = {[ "team" := "edge" ]}
  /\ entries (heap (snd (mapassign 2%positive "tier" "gold" (snd firstBuild))))
       (metav1.Labels (Certificate.ObjectMeta SpecModel.web))
     = <[ "tier" := "gold" ]> {[ "app" := "web" ]}.
Proof.
  destruct (buildCertificateRequest_sharing SpecModel.deps SpecModel.web "web-364324867"
              SpecModel.webKeyData SpecModel.start _ _ "tier" "gold" firstBuild_ok
              web_annotations_allocated web_labels_allocated)
    as [Hann Hlab].
  split.
  - rewrite (Hann 3%positive) by (vm_compute; reflexivity). reflexivity.
  - rewrite (Hlab 2%positive) by (vm_compute; reflexivity). reflexivity.
Defined.

(** Two builds in a row: the records have annotations maps of their own. *)
Lemma buildCertificateRequest_twice_web :
  metav1.Annotations (CertificateRequest.ObjectMeta (built firstBuild))
  <> metav1.Annotations (CertificateRequest.ObjectMeta (built secondBuild))
  /\ entries (heap (snd secondBuild))
       (metav1.Annotations (CertificateRequest.ObjectMeta (built firstBuild)))
     = entries (heap (snd firstBuild))
         (metav1.Annotations (CertificateRequest.ObjectMeta (built firstBuild))).
Proof.
  exact (buildCertificateRequest_twice SpecModel.deps SpecModel.web SpecModel.webCopy
           "web-364324867" "web-364324867" SpecModel.webKeyData SpecModel.webKeyData
           SpecModel.start (snd firstBuild) (snd secondBuild)
           (built firstBuild) (built secondBuild) firstBuild_ok secondBuild_ok).
Defined.

(** The maps of the scenario's certificate after the invocation. *)
Lemma Run_heap_frame_web :
  heap (snd webRun) !! 1%positive = Some {[ "team" := "edge" ]}
  /\ heap (snd webRun) !! 2%positive = Some {[ "app" := "web" ]}.
Proof.
  destruct (Run_heap_frame SpecModel.deps (SpecModel.factory [SpecModel.web])
              SpecModel.start _ _ webRun_ok) as [Hkept _].
  split; apply Hkept; vm_compute; reflexivity.
Defined.

(** The invocation of the scenario with a namer that answers "anything". *)
Lemma Run_ignores_computed_name_web :
  Run (withNamer SpecModel.deps (fun _ => inr "anything"))
    (SpecModel.factory [SpecModel.web]) SpecModel.start
  = webRun.
Proof.
  apply (Run_ignores_computed_name SpecModel.deps (SpecModel.factory [SpecModel.web])
           "default" SpecModel.web SpecModel.start (fun _ => inr "anything")
           "web-364324867" "anything" (web_resolves SpecModel.web)).
  - vm_compute. reflexivity.
  - reflexivity.
Defined.

Lemma unsupportedRun_failed :
  unsupportedRun = (inl "error when generating private key", snd unsupportedRun).
Proof. vm_compute. reflexivity. Defined.

(** The invocation that stops at key generation has created nothing. *)
Lemma Run_failure_creates_nothing_unsupported :
  exists evs,
    trace (snd unsupportedRun) = trace SpecModel.start ++ evs
    /\ forall ns req, Created ns req ∉ evs.
Proof.
  exact (Run_failure_creates_nothing SpecModel.deps
           (SpecModel.factory [SpecModel.unsupported]) SpecModel.start _ _
           unsupportedRun_failed).
Defined.

(** Options with a file name are completed; fresh options are not. *)
Example Complete_sample :
  Complete sampleOptions (Some "cluster", None)
  = (Build_Options sampleCli (Some "client of cluster") (Some "cluster")
       (FilenameOptions sampleOptions) tt, None)
  /\ Complete (@NewOptions sampleCli tt) (Some "cluster", None)
     = (@NewOptions sampleCli tt, Some "must specify one of -f and -k").
Proof. split; reflexivity. Qed.
